(** * Close approaches of near-Earth objects: filters, bounded iteration and loading

  A shallow embedding of [src/src/filters.py] ([create_filters] and [limit]),
  of the part of the entity model its lambdas read, and of
  [src/src/extract.py] ([load_neos] and [load_approaches]) from the parsed
  rows on.  Python floats are IEEE-754 binary64 values, represented by
  [spec_float] with the comparison of the standard library's specification of
  floating point; every statement below is proved for all [spec_float]
  values, the binary64 ones included. *)

From Stdlib Require Import String ZArith List Bool Lia Permutation Sorted.
From Stdlib Require Import Floats.SpecFloat.
Import ListNotations.
Open Scope Z_scope.

(** ** Python values read by the filters *)

Module Py.

(** A Python [float]. *)
Definition float : Type := spec_float.

Definition nan : float := S754_nan.

(** [m * 2^e] rounded to binary64; used to write literals. *)
Definition b64 (m e : Z) : float := binary_normalize 53 1024 m e false.

(** [bool(x)] of a float: [x != 0.0].  Both zeros are falsy, NaN is truthy. *)
Definition float_bool (x : float) : bool :=
  match x with
  | S754_zero _ => false
  | _ => true
  end.

(** [x >= y], [x <= y] and [x > y] on floats: false as soon as an operand is NaN. *)
Definition float_ge (x y : float) : bool :=
  match SFcompare x y with
  | Some (Gt | Eq) => true
  | _ => false
  end.

Definition float_le (x y : float) : bool :=
  match SFcompare x y with
  | Some (Lt | Eq) => true
  | _ => false
  end.

Definition float_gt (x y : float) : bool :=
  match SFcompare x y with
  | Some Gt => true
  | _ => false
  end.

(** [datetime.date]: compared as the tuple (year, month, day). *)
Record date : Type := mkdate { year : Z; month : Z; day : Z }.

Definition date_cmp (a b : date) : comparison :=
  match year a ?= year b with
  | Eq => match month a ?= month b with
          | Eq => day a ?= day b
          | c => c
          end
  | c => c
  end.

Definition date_eq (a b : date) : bool :=
  match date_cmp a b with Eq => true | _ => false end.

Definition date_ge (a b : date) : bool :=
  match date_cmp a b with Lt => false | _ => true end.

Definition date_le (a b : date) : bool :=
  match date_cmp a b with Gt => false | _ => true end.

Definition date_gt (a b : date) : bool :=
  match date_cmp a b with Gt => true | _ => false end.

(** [datetime.datetime], and its [date()] method, which drops the time of day. *)
Record datetime : Type := mkdatetime {
  dt_year : Z; dt_month : Z; dt_day : Z;
  dt_hour : Z; dt_minute : Z; dt_second : Z
}.

Definition datetime_date (t : datetime) : date :=
  mkdate (dt_year t) (dt_month t) (dt_day t).

End Py.

(** ** Entity model *)

Module Models.
Import Py.

(** Modelled from the spec: the class [NearEarthObject] of [models.py], which
    is not among the sources.  Section 3 of the specification gives its
    attributes; the back-references to the approaches are not read by any
    filter and are left out. *)
Record NearEarthObject : Type := mkNEO {
  designation : string;
  name : option string;
  diameter : float;
  hazardous : bool
}.

(** Modelled from the spec: the class [CloseApproach] of [models.py], which is
    not among the sources.  [neo] is the reference resolved when the database
    is built. *)
Record CloseApproach : Type := mkCA {
  time : datetime;
  distance : float;
  velocity : float;
  neo : NearEarthObject
}.

End Models.

(** ** [filters.py] *)

Module Filters.
Import Py Models.

(** What a filter returns: [x if ... else False] is either the approach
    itself or a boolean. *)
Inductive value : Type :=
| VApproach (x : CloseApproach)
| VBool (b : bool).

(** Truth value of a result, as [if], [all] and [filter] test it.  The class
    [CloseApproach] ([models.py], not among the sources) is a passive data
    holder in the specification, so an instance is taken to have the default
    truth value of a Python object. *)
Definition truthy (v : value) : bool :=
  match v with
  | VApproach _ => true
  | VBool b => b
  end.

(** The ten lambdas of [create_filters], each with the bound it closes over. *)
Inductive AttributeFilter : Type :=
| DistanceMin (distance_min : float)
| DistanceMax (distance_max : float)
| VelocityMin (velocity_min : float)
| VelocityMax (velocity_max : float)
| Hazardous (hazardous : bool)
| DiameterMin (diameter_min : float)
| DiameterMax (diameter_max : float)
| Date (date : Py.date)
| StartDate (start_date : Py.date)
| EndDate (end_date : Py.date).

(** The condition of each lambda. *)
Definition test (f : AttributeFilter) (x : CloseApproach) : bool :=
  match f with
  | DistanceMin distance_min => float_ge (distance x) distance_min
  | DistanceMax distance_max => float_le (distance x) distance_max
  | VelocityMin velocity_min => float_ge (velocity x) velocity_min
  | VelocityMax velocity_max => float_le (velocity x) velocity_max
  | Hazardous h => Bool.eqb (hazardous (neo x)) h
  | DiameterMin diameter_min => float_ge (diameter (neo x)) diameter_min
  | DiameterMax diameter_max => float_le (diameter (neo x)) diameter_max
  | Date d => date_eq (datetime_date (time x)) d
  | StartDate start_date => date_ge (datetime_date (time x)) start_date
  | EndDate end_date => date_le (datetime_date (time x)) end_date
  end.

(** Calling a filter: [lambda x: x if <condition> else False]. *)
Definition call (f : AttributeFilter) (x : CloseApproach) : value :=
  if test f x then VApproach x else VBool false.

(** [if bound: filters.append(...)] for a float bound: [None] and zero are falsy. *)
Definition append_if_float (bound : option float) (mk : float -> AttributeFilter)
    (filters : list AttributeFilter) : list AttributeFilter :=
  match bound with
  | Some b => if float_bool b then filters ++ [mk b] else filters
  | None => filters
  end.

(** [if hazardous is not None: filters.append(...)]. *)
Definition append_if_not_None {B : Type} (bound : option B) (mk : B -> AttributeFilter)
    (filters : list AttributeFilter) : list AttributeFilter :=
  match bound with
  | Some b => filters ++ [mk b]
  | None => filters
  end.

(** [if date: filters.append(...)] for a [datetime.date] bound: a date object
    is always truthy, so only [None] is skipped. *)
Definition append_if_date (bound : option Py.date) (mk : Py.date -> AttributeFilter)
    (filters : list AttributeFilter) : list AttributeFilter :=
  match bound with
  | Some b => filters ++ [mk b]
  | None => filters
  end.

Definition create_filters
    (date start_date end_date : option Py.date)
    (distance_min distance_max velocity_min velocity_max
     diameter_min diameter_max : option float)
    (hazardous : option bool) : list AttributeFilter :=
  let filters := [] in
  let filters := append_if_float distance_min DistanceMin filters in
  let filters := append_if_float distance_max DistanceMax filters in
  let filters := append_if_float velocity_min VelocityMin filters in
  let filters := append_if_float velocity_max VelocityMax filters in
  let filters := append_if_not_None hazardous Hazardous filters in
  let filters := append_if_float diameter_min DiameterMin filters in
  let filters := append_if_float diameter_max DiameterMax filters in
  let filters := append_if_date date Date filters in
  let filters := append_if_date start_date StartDate filters in
  let filters := append_if_date end_date EndDate filters in
  filters.


(** *** Iterators

    An iterator is represented by what [next] does to it.  [Source] stands for
    any finite upstream iterator, given by the items it has yet to produce;
    [Islice] is the object built by [itertools.islice(upstream, stop)], with the
    number of items it may still produce ([None] when [stop] is [None]). *)
Inductive iter (A : Type) : Type :=
| Source (pending : list A)
| Islice (upstream : iter A) (remaining : option nat).

Arguments Source {A} pending.
Arguments Islice {A} upstream remaining.

(** [next(it)]: [None] is [StopIteration]; otherwise the item and the advanced
    iterator.  An exhausted [Islice] does not advance its upstream. *)
Fixpoint next {A : Type} (it : iter A) : option (A * iter A) :=
  match it with
  | Source [] => None
  | Source (x :: pending) => Some (x, Source pending)
  | Islice upstream (Some O) => None
  | Islice upstream (Some (S k)) =>
      match next upstream with
      | Some (x, upstream') => Some (x, Islice upstream' (Some k))
      | None => None
      end
  | Islice upstream None =>
      match next upstream with
      | Some (x, upstream') => Some (x, Islice upstream' None)
      | None => None
      end
  end.

(** [list(it)]: pull until [StopIteration]; [None] when the fuel runs out first. *)
Fixpoint collect {A : Type} (fuel : nat) (it : iter A) : option (list A) :=
  match fuel with
  | O => None
  | S fuel' =>
      match next it with
      | None => Some []
      | Some (x, it') =>
          match collect fuel' it' with
          | Some l => Some (x :: l)
          | None => None
          end
      end
  end.

(** The items an iterator has yet to produce, in order. *)
Fixpoint items {A : Type} (it : iter A) : list A :=
  match it with
  | Source pending => pending
  | Islice upstream (Some k) => firstn k (items upstream)
  | Islice upstream None => items upstream
  end.

Inductive exn : Type := ValueError.

Inductive result (A : Type) : Type :=
| Return (a : A)
| Raise (e : exn).

Arguments Return {A} a.
Arguments Raise {A} e.

(** [sys.maxsize] of a 64-bit CPython, the largest [stop] that
    [itertools.islice] accepts. *)
Definition sys_maxsize : Z := 9223372036854775807.

(** [itertools.islice(iterator, stop)]: [stop] must be [None] or an integer
    with [0 <= stop <= sys.maxsize]; any other integer raises [ValueError]. *)
Definition islice {A : Type} (it : iter A) (stop : option Z) : result (iter A) :=
  match stop with
  | None => Return (Islice it None)
  | Some n =>
      if (n <? 0) || (sys_maxsize <? n) then Raise ValueError
      else Return (Islice it (Some (Z.to_nat n)))
  end.

(** [n == 0] and [n is None] for an optional integer. *)
Definition eq_zero (n : option Z) : bool :=
  match n with
  | Some k => k =? 0
  | None => false
  end.

Definition is_None {B : Type} (n : option B) : bool :=
  match n with
  | Some _ => false
  | None => true
  end.

Definition limit {A : Type} (iterator : iter A) (n : option Z) : result (iter A) :=
  if eq_zero n || is_None n then Return iterator
  else islice iterator n.

(** *** The consumer of the filters *)

(** An approach satisfies a collection of filters when every filter returns a
    truthy result on it.  This is also the rule section 4.1 of the
    specification gives for [query]. *)
Definition matches (filters : list AttributeFilter) (approach : CloseApproach) : bool :=
  forallb (fun f => truthy (call f approach)) filters.

(** Modelled from the spec: [NEODatabase.query] ([database.py] is not among the
    sources).  Section 4.1: the approaches are visited in their original order,
    the matching ones are yielded, and the stream is truncated by [limit]. *)
Definition query (approaches : list CloseApproach) (filters : list AttributeFilter)
    (n : option Z) : result (iter CloseApproach) :=
  limit (Source (List.filter (matches filters) approaches)) n.

End Filters.

(** ** [extract.py]

    [load_neos] and [load_approaches] from the point where the file has been
    read: [load_neos] takes the rows [csv.DictReader] yields, [load_approaches]
    the rows of [data['data']] as [json.load] returns them, every field of
    these being a string.  Opening and parsing the files is not represented. *)

Module Extract.
Import Py Models.

Inductive error : Type :=
| KeyError (key : string)
| IndexError
| ValueError (literal : string)
| TypeError.

Inductive outcome (A : Type) : Type :=
| Returned (a : A)
| Raised (e : error).

Arguments Returned {A} a.
Arguments Raised {A} e.

Definition bind {A B : Type} (c : outcome A) (k : A -> outcome B) : outcome B :=
  match c with
  | Returned a => k a
  | Raised e => Raised e
  end.

Notation "x <- c ;; k" := (bind c (fun x => k))
  (at level 61, c at next level, right associativity).

(** A row of [csv.DictReader]: a dict from column names to cells, read only
    through [line[key]].  A cell is a string, or [None] where the line of the
    file has fewer fields than the header. *)
Definition csv_row : Type := string -> option (option string).

(** The dict holding the given pairs; a later pair overrides an earlier one
    with the same key. *)
Fixpoint dict (pairs : list (string * option string)) : csv_row :=
  fun key =>
    match pairs with
    | [] => None
    | (k, v) :: rest =>
        match dict rest key with
        | Some v' => Some v'
        | None => if String.eqb k key then Some v else None
        end
    end.

(** [zip(fieldnames, row)], the fields a short line lacks being [None]. *)
Fixpoint zip_fill (fieldnames row : list string) : list (string * option string) :=
  match fieldnames with
  | [] => []
  | k :: ks =>
      match row with
      | [] => (k, None) :: zip_fill ks []
      | v :: vs => (k, Some v) :: zip_fill ks vs
      end
  end.

(** The row [csv.DictReader] yields for one line of the file under the given
    header.  Fields beyond the header go under a key that is not a string,
    which the code never reads. *)
Definition reader_row (fieldnames row : list string) : csv_row :=
  dict (zip_fill fieldnames row).

(** [line[key]] on a dict: a missing key raises [KeyError]. *)
Definition getitem (line : csv_row) (key : string) : outcome (option string) :=
  match line key with
  | Some v => Returned v
  | None => Raised (KeyError key)
  end.

(** [x == s] for a cell [x] and a string [s]: [None] equals no string. *)
Definition cell_eq (x : option string) (s : string) : bool :=
  match x with
  | Some v => String.eqb v s
  | None => false
  end.

(** The keyword arguments of a call
    [NearEarthObject(designation=, name=, diameter=, hazardous=)].  The
    constructor is in [models.py], which is not among the sources; what it
    makes of its arguments is not represented. *)
Record NearEarthObjectArgs : Type := mkNeoArgs {
  arg_designation : option string;
  arg_name : option string;
  arg_diameter : float;
  arg_hazardous : bool
}.

(** [line[i]] on a list, for a non-negative [i]: out of range raises
    [IndexError]. *)
Definition index (line : list string) (i : nat) : outcome string :=
  match nth_error line i with
  | Some v => Returned v
  | None => Raised IndexError
  end.

(** The keyword arguments of a call
    [CloseApproach(time=, distance=, velocity=, neo_designation=)].  The
    constructor is in [models.py], which is not among the sources; what it
    makes of its arguments is not represented. *)
Record CloseApproachArgs : Type := mkArgs {
  arg_time : string;
  arg_distance : float;
  arg_velocity : float;
  arg_neo_designation : string
}.

Section WithFloat.

(** The builtin [float] on strings; [None] stands for its [ValueError]. *)
Variable py_float : string -> option float.

Definition to_float (s : string) : outcome float :=
  match py_float s with
  | Some x => Returned x
  | None => Raised (ValueError s)
  end.

(** [float(x)] on a cell: [None] raises [TypeError]. *)
Definition float_of_cell (x : option string) : outcome float :=
  match x with
  | Some s => to_float s
  | None => Raised TypeError
  end.

(** The body of the loop of [load_neos], up to the object it appends. *)
Definition neo_of_line (line : csv_row) : outcome NearEarthObjectArgs :=
  pha <- getitem line "pha" ;;
  let haz := cell_eq pha "Y" in
  x <- getitem line "diameter" ;;
  diam <- (if cell_eq x "" then Returned nan
           else d <- getitem line "diameter" ;; float_of_cell d) ;;
  x <- getitem line "name" ;;
  name <- (if cell_eq x "" then Returned None
           else n <- getitem line "name" ;; Returned n) ;;
  pdes <- getitem line "pdes" ;;
  Returned (mkNeoArgs pdes name diam haz).

(** [for line in csv_reader: ... near_earth_objects.append(obj)]; an exception
    leaves the loop and the function. *)
Fixpoint load_neos_loop (csv_reader : list csv_row)
    (near_earth_objects : list NearEarthObjectArgs)
    : outcome (list NearEarthObjectArgs) :=
  match csv_reader with
  | [] => Returned near_earth_objects
  | line :: rest =>
      obj <- neo_of_line line ;;
      load_neos_loop rest (near_earth_objects ++ [obj])
  end.

Definition load_neos (csv_reader : list csv_row) : outcome (list NearEarthObjectArgs) :=
  load_neos_loop csv_reader [].

(** The body of the loop of [load_approaches]. *)
Definition approach_of_line (line : list string) : outcome CloseApproachArgs :=
  v <- index line 7 ;;
  approach_velocity <- to_float v ;;
  d <- index line 4 ;;
  approach_distance <- to_float d ;;
  t <- index line 3 ;;
  des <- index line 0 ;;
  Returned (mkArgs t approach_distance approach_velocity des).

Fixpoint load_approaches_loop (data : list (list string))
    (approach_objects : list CloseApproachArgs) : outcome (list CloseApproachArgs) :=
  match data with
  | [] => Returned approach_objects
  | line :: rest =>
      obj <- approach_of_line line ;;
      load_approaches_loop rest (approach_objects ++ [obj])
  end.

Definition load_approaches (data : list (list string)) : outcome (list CloseApproachArgs) :=
  load_approaches_loop data [].

End WithFloat.

End Extract.

Import Py Models Filters.

(** ** Vocabulary of the statements *)

(** The same approach with the hazardous flag of its NEO replaced. *)
Definition with_hazardous (a : CloseApproach) (h : bool) : CloseApproach :=
  mkCA (time a) (distance a) (velocity a)
       (mkNEO (designation (neo a)) (name (neo a)) (diameter (neo a)) h).

(** The same approach at another time of the same day. *)
Definition with_time_of_day (a : CloseApproach) (h m s : Z) : CloseApproach :=
  mkCA (mkdatetime (dt_year (time a)) (dt_month (time a)) (dt_day (time a)) h m s)
       (distance a) (velocity a) (neo a).

(** Chronological order of calendar dates. *)
Definition on_or_before (a b : date) : Prop :=
  year a < year b \/
  (year a = year b /\ (month a < month b \/ (month a = month b /\ day a <= day b))).

(** The predicate of one criterion: it constrains only when its guard lets a
    filter in. *)
Definition float_criterion (bound : option float) (p : float -> bool) : bool :=
  match bound with
  | Some b => if float_bool b then p b else true
  | None => true
  end.

Definition criterion {B : Type} (bound : option B) (p : B -> bool) : bool :=
  match bound with
  | Some b => p b
  | None => true
  end.

(** Conjunction of the ten criterion predicates on an approach. *)
Definition all_criteria
    (date start_date end_date : option Py.date)
    (distance_min distance_max velocity_min velocity_max
     diameter_min diameter_max : option float)
    (hazardous : option bool) (a : CloseApproach) : bool :=
  float_criterion distance_min (fun b => float_ge (distance a) b)
  && float_criterion distance_max (fun b => float_le (distance a) b)
  && float_criterion velocity_min (fun b => float_ge (velocity a) b)
  && float_criterion velocity_max (fun b => float_le (velocity a) b)
  && criterion hazardous (fun h => Bool.eqb (Models.hazardous (neo a)) h)
  && float_criterion diameter_min (fun b => float_ge (diameter (neo a)) b)
  && float_criterion diameter_max (fun b => float_le (diameter (neo a)) b)
  && criterion date (fun d => date_eq (datetime_date (time a)) d)
  && criterion start_date (fun d => date_ge (datetime_date (time a)) d)
  && criterion end_date (fun d => date_le (datetime_date (time a)) d).

(** [x >= b] and [x <= b] on floats, read off the IEEE comparison: the
    operands are ordered (neither is NaN) and compare the stated way. *)
Definition at_least (x b : float) : Prop :=
  SFcompare x b = Some Gt \/ SFcompare x b = Some Eq.

Definition at_most (x b : float) : Prop :=
  SFcompare x b = Some Lt \/ SFcompare x b = Some Eq.

(** An inverted pair of bounds, both of which produce a filter. *)
Definition inverted_floats (lo hi : option float) : bool :=
  match lo, hi with
  | Some l, Some h => float_bool l && float_bool h && float_gt l h
  | _, _ => false
  end.

Definition inverted_dates (lo hi : option Py.date) : bool :=
  match lo, hi with
  | Some l, Some h => date_gt l h
  | _, _ => false
  end.

(** The two filters that read the diameter of the NEO. *)
Definition on_diameter (f : AttributeFilter) : bool :=
  match f with
  | DiameterMin _ | DiameterMax _ => true
  | _ => false
  end.

(** *** A small fixture *)

Definition eros : NearEarthObject :=
  mkNEO "2000433"%string (Some "Eros"%string) (b64 67 (-2)) false.

Definition unmeasured : NearEarthObject :=
  mkNEO "2019 XY"%string None nan true.

Definition new_year_2020 : datetime := mkdatetime 2020 1 1 12 30 0.

(** Eros passing at 0.25 au and 5 km/s. *)
Definition eros_pass : CloseApproach :=
  mkCA new_year_2020 (b64 1 (-2)) (b64 5 0) eros.

Definition unmeasured_pass : CloseApproach :=
  mkCA new_year_2020 (b64 1 (-4)) (b64 9 0) unmeasured.

Definition zero : float := S754_zero false.

(** *** Vocabulary of the further properties *)

(** Position of a filter in the order in which [create_filters] appends. *)
Definition rank (f : AttributeFilter) : nat :=
  match f with
  | DistanceMin _ => 0
  | DistanceMax _ => 1
  | VelocityMin _ => 2
  | VelocityMax _ => 3
  | Hazardous _ => 4
  | DiameterMin _ => 5
  | DiameterMax _ => 6
  | Date _ => 7
  | StartDate _ => 8
  | EndDate _ => 9
  end%nat.

(** Pull until [StopIteration]: what was produced and the iterator as it is
    left; [None] when the fuel runs out first. *)
Fixpoint exhaust {A : Type} (fuel : nat) (it : iter A) : option (list A * iter A) :=
  match fuel with
  | O => None
  | S fuel' =>
      match next it with
      | None => Some ([], it)
      | Some (x, it') =>
          match exhaust fuel' it' with
          | Some (l, final) => Some (x :: l, final)
          | None => None
          end
      end
  end.

(** The iterator an [islice] object reads from. *)
Definition upstream_of {A : Type} (it : iter A) : option (iter A) :=
  match it with
  | Islice upstream _ => Some upstream
  | Source _ => None
  end.

(** [loose] constrains no more than [tight], criterion by criterion. *)
Definition relaxes_min (loose tight : option float) : bool :=
  match loose with
  | None => true
  | Some lo =>
      negb (float_bool lo)
      || match tight with
         | Some lo' => float_bool lo' && float_le lo lo'
         | None => false
         end
  end.

Definition relaxes_max (loose tight : option float) : bool :=
  match loose with
  | None => true
  | Some hi =>
      negb (float_bool hi)
      || match tight with
         | Some hi' => float_bool hi' && float_le hi' hi
         | None => false
         end
  end.

Definition relaxes_hazardous (loose tight : option bool) : bool :=
  match loose, tight with
  | None, _ => true
  | Some h, Some h' => Bool.eqb h h'
  | Some _, None => false
  end.

Definition relaxes_date (loose tight : option Py.date) : bool :=
  match loose, tight with
  | None, _ => true
  | Some d, Some d' => date_eq d d'
  | Some _, None => false
  end.

Definition relaxes_start (loose tight : option Py.date) : bool :=
  match loose, tight with
  | None, _ => true
  | Some d, Some d' => date_le d d'
  | Some _, None => false
  end.

Definition relaxes_end (loose tight : option Py.date) : bool :=
  match loose, tight with
  | None, _ => true
  | Some d, Some d' => date_le d' d
  | Some _, None => false
  end.

(** Whether one of the six numeric bounds is NaN. *)
Definition is_nan_bound (bound : option float) : bool :=
  match bound with
  | Some S754_nan => true
  | _ => false
  end.

(** *** Vocabulary for [extract.py] *)

Open Scope string_scope.

(** A row that [neo_of_line] accepts: the four columns are present and the
    diameter is a string, empty or a float literal. *)
Definition loadable_neo (py_float : string -> option float) (line : Extract.csv_row) : Prop :=
  exists pha d n p,
    line "pha" = Some pha /\ line "diameter" = Some (Some d)
    /\ line "name" = Some n /\ line "pdes" = Some p
    /\ (d = "" \/ exists x, py_float d = Some x).

(** A small stand-in for [float] on the literals of the fixture. *)
Definition sample_float (s : string) : option float :=
  if String.eqb s "16.75" then Some (b64 67 (-2))
  else if String.eqb s "0.25" then Some (b64 1 (-2))
  else if String.eqb s "5.0" then Some (b64 5 0)
  else None.

Definition neo_header : list string := ["pdes"; "name"; "pha"; "diameter"].

Definition eros_row : Extract.csv_row :=
  Extract.reader_row neo_header ["2000433"; "Eros"; "N"; "16.75"].

Definition unmeasured_row : Extract.csv_row :=
  Extract.reader_row neo_header ["2019 XY"; ""; "Y"; ""].

(** A line of the file that stops after the name. *)
Definition short_row : Extract.csv_row :=
  Extract.reader_row neo_header ["433"; "Eros"].

(** A line whose diameter is not a number. *)
Definition garbled_row : Extract.csv_row :=
  Extract.reader_row neo_header ["433"; "Eros"; "N"; "abc"].

Definition eros_args : Extract.NearEarthObjectArgs :=
  Extract.mkNeoArgs (Some "2000433") (Some "Eros") (b64 67 (-2)) false.

Definition unmeasured_args : Extract.NearEarthObjectArgs :=
  Extract.mkNeoArgs (Some "2019 XY") None nan true.

Definition eros_cad : list string :=
  ["2000433"; "orbit"; "jd"; "2020-Jan-01 12:30"; "0.25"; "min"; "max"; "5.0"; "vinf"].

(** Columns 0 to 4 only. *)
Definition short_cad : list string :=
  ["2000433"; "orbit"; "jd"; "2020-Jan-01 12:30"; "0.25"].

Close Scope string_scope.

(** Take the conjunctions, disjunctions and existentials of the context apart. *)
Ltac break_hyps :=
  repeat match goal with
  | H : _ /\ _ |- _ => destruct H
  | H : exists _, _ |- _ => destruct H
  | H : _ \/ _ |- _ => destruct H
  end.

(** Case analysis on every integer and mantissa comparison in sight. *)
Ltac order_cases :=
  repeat match goal with
  | |- context [Z.compare ?a ?b] => destruct (Z.compare_spec a b)
  | H : context [Z.compare ?a ?b] |- _ => destruct (Z.compare_spec a b)
  | |- context [Pos.compare_cont Eq ?a ?b] =>
      change (Pos.compare_cont Eq a b) with (Pos.compare a b);
      destruct (Pos.compare_spec a b)
  | H : context [Pos.compare_cont Eq ?a ?b] |- _ =>
      change (Pos.compare_cont Eq a b) with (Pos.compare a b) in H;
      destruct (Pos.compare_spec a b)
  end.

(** ** Structure of the filter collection *)

Section Collection.

Variables (date start_date end_date : option Py.date).
Variables (distance_min distance_max velocity_min velocity_max
           diameter_min diameter_max : option float).
Variable (hazardous : option bool).

Lemma append_if_float_app bound mk filters :
  append_if_float bound mk filters = filters ++ append_if_float bound mk [].
Proof.
  unfold append_if_float.
  destruct bound as [b|]; [destruct (float_bool b)|]; simpl;
    now rewrite ?app_nil_r.
Qed.

Lemma append_if_not_None_app {B : Type} (bound : option B) mk filters :
  append_if_not_None bound mk filters = filters ++ append_if_not_None bound mk [].
Proof.
  destruct bound; simpl; now rewrite ?app_nil_r.
Qed.

Lemma append_if_date_app bound mk filters :
  append_if_date bound mk filters = filters ++ append_if_date bound mk [].
Proof.
  destruct bound; simpl; now rewrite ?app_nil_r.
Qed.

(** The collection is the concatenation, in source order, of what each of the
    ten guarded [append]s contributes. *)
Lemma create_filters_app :
  create_filters date start_date end_date distance_min distance_max
                 velocity_min velocity_max diameter_min diameter_max hazardous
  = append_if_float distance_min DistanceMin []
    ++ append_if_float distance_max DistanceMax []
    ++ append_if_float velocity_min VelocityMin []
    ++ append_if_float velocity_max VelocityMax []
    ++ append_if_not_None hazardous Hazardous []
    ++ append_if_float diameter_min DiameterMin []
    ++ append_if_float diameter_max DiameterMax []
    ++ append_if_date date Date []
    ++ append_if_date start_date StartDate []
    ++ append_if_date end_date EndDate [].
Proof.
  unfold create_filters; cbv zeta.
  rewrite (append_if_date_app end_date), (append_if_date_app start_date),
    (append_if_date_app date), (append_if_float_app diameter_max),
    (append_if_float_app diameter_min), (append_if_not_None_app hazardous),
    (append_if_float_app velocity_max), (append_if_float_app velocity_min),
    (append_if_float_app distance_max).
  now rewrite <- !app_assoc.
Qed.

End Collection.

Lemma in_append_if_float f bound mk :
  In f (append_if_float bound mk []) <->
  exists b, bound = Some b /\ float_bool b = true /\ f = mk b.
Proof.
  unfold append_if_float; split.
  - destruct bound as [b|]; [destruct (float_bool b) eqn:E|]; simpl;
      intros H; try contradiction.
    destruct H as [<-|[]]. now exists b.
  - intros (b & -> & -> & ->). now left.
Qed.

Lemma in_append_if_not_None {B : Type} f (bound : option B) mk :
  In f (append_if_not_None bound mk []) <-> exists b, bound = Some b /\ f = mk b.
Proof.
  split.
  - destruct bound as [b|]; simpl; intros H; try contradiction.
    destruct H as [<-|[]]. now exists b.
  - intros (b & -> & ->). now left.
Qed.

Lemma in_append_if_date f bound mk :
  In f (append_if_date bound mk []) <-> exists b, bound = Some b /\ f = mk b.
Proof.
  split.
  - destruct bound as [b|]; simpl; intros H; try contradiction.
    destruct H as [<-|[]]. now exists b.
  - intros (b & -> & ->). now left.
Qed.

(** ** The matching rule *)

Lemma matches_app l1 l2 a : matches (l1 ++ l2) a = matches l1 a && matches l2 a.
Proof. unfold matches. apply forallb_app. Qed.

Lemma matches_true_iff l a :
  matches l a = true <-> forall f, In f l -> truthy (call f a) = true.
Proof. unfold matches. apply forallb_forall. Qed.

Lemma truthy_call f a : truthy (call f a) = test f a.
Proof. unfold call. now destruct (test f a). Qed.

Lemma matches_Permutation l l' a : Permutation l l' -> matches l a = matches l' a.
Proof.
  induction 1 as [|f l l' _ IH|f g l|l l' l'' _ IH1 _ IH2]; simpl.
  - reflexivity.
  - now rewrite IH.
  - now rewrite !andb_assoc, (andb_comm (truthy (call g a))).
  - now rewrite IH1.
Qed.

(** ** Iterators *)

Lemma next_items {A : Type} (it : iter A) :
  match next it with
  | None => items it = []
  | Some (x, it') => items it = x :: items it'
  end.
Proof.
  induction it as [pending|upstream IH remaining]; simpl.
  - now destruct pending.
  - destruct remaining as [[|k]|]; simpl; try reflexivity;
      destruct (next upstream) as [[x upstream']|]; simpl; now rewrite IH.
Qed.

(** Pulling from an iterator terminates and yields its pending items, as soon
    as the fuel exceeds their number. *)
Lemma collect_items {A : Type} (fuel : nat) :
  forall it : iter A, (length (items it) < fuel)%nat -> collect fuel it = Some (items it).
Proof.
  induction fuel as [|fuel IH]; intros it Hlen; [lia|].
  simpl. pose proof (next_items it) as Hn.
  destruct (next it) as [[x it']|].
  - rewrite Hn in *. simpl in Hlen. rewrite IH by lia. reflexivity.
  - now rewrite Hn.
Qed.

(** Within the range [islice] accepts, a positive limit wraps the iterator. *)
Lemma limit_in_range {A : Type} (it : iter A) (n : Z) :
  0 < n -> n <= sys_maxsize ->
  limit it (Some n) = Return (Islice it (Some (Z.to_nat n))).
Proof.
  intros Hn Hmax. unfold limit, islice, eq_zero, is_None.
  destruct (Z.eqb_spec n 0); [lia|]. simpl.
  destruct (Z.ltb_spec n 0); [lia|].
  destruct (Z.ltb_spec sys_maxsize n); [lia|reflexivity].
Qed.

(** ** Order facts on floats and dates *)

Lemma float_compare_nan_l y : SFcompare nan y = None.
Proof. reflexivity. Qed.

Lemma float_compare_nan_r x : SFcompare x nan = None.
Proof. now destruct x. Qed.

(** No float lies between an inverted pair of bounds. *)
Lemma float_between_inverted x lo hi :
  float_ge x lo = true -> float_le x hi = true -> float_gt lo hi = true -> False.
Proof.
  unfold float_ge, float_le, float_gt.
  destruct x as [sx|sx| |sx mx ex], lo as [sl|sl| |sl ml el], hi as [sh|sh| |sh mh eh];
    simpl; try discriminate;
    try destruct sx; try destruct sl; try destruct sh; simpl; try discriminate;
    intros H1 H2 H3; order_cases; simpl in *; try discriminate; subst; lia.
Qed.

Lemma date_between_inverted x lo hi :
  date_ge x lo = true -> date_le x hi = true -> date_gt lo hi = true -> False.
Proof.
  unfold date_ge, date_le, date_gt, date_cmp.
  destruct x as [y m d], lo as [yl ml dl], hi as [yh mh dh]; simpl.
  intros H1 H2 H3; order_cases; simpl in *; try discriminate; subst; lia.
Qed.

Lemma date_eq_true_iff a b : date_eq a b = true <-> a = b.
Proof.
  unfold date_eq, date_cmp. destruct a as [y m d], b as [y' m' d']; simpl.
  split.
  - intros H; order_cases; try discriminate; now subst.
  - intros [= -> -> ->]. now rewrite !Z.compare_refl.
Qed.

(** ** Membership in the collection *)

Lemma in_create_filters f date start_date end_date distance_min distance_max
    velocity_min velocity_max diameter_min diameter_max hazardous :
  In f (create_filters date start_date end_date distance_min distance_max
          velocity_min velocity_max diameter_min diameter_max hazardous) <->
  (exists b, distance_min = Some b /\ float_bool b = true /\ f = DistanceMin b) \/
  (exists b, distance_max = Some b /\ float_bool b = true /\ f = DistanceMax b) \/
  (exists b, velocity_min = Some b /\ float_bool b = true /\ f = VelocityMin b) \/
  (exists b, velocity_max = Some b /\ float_bool b = true /\ f = VelocityMax b) \/
  (exists h, hazardous = Some h /\ f = Hazardous h) \/
  (exists b, diameter_min = Some b /\ float_bool b = true /\ f = DiameterMin b) \/
  (exists b, diameter_max = Some b /\ float_bool b = true /\ f = DiameterMax b) \/
  (exists d, date = Some d /\ f = Date d) \/
  (exists d, start_date = Some d /\ f = StartDate d) \/
  (exists d, end_date = Some d /\ f = EndDate d).
Proof.
  rewrite create_filters_app, !in_app_iff, !in_append_if_float,
    !in_append_if_date, in_append_if_not_None.
  reflexivity.
Qed.

Lemma forallb_ext_in {A : Type} (p q : A -> bool) l :
  (forall x, In x l -> p x = q x) -> forallb p l = forallb q l.
Proof.
  induction l as [|x l IH]; simpl; intros H; [reflexivity|].
  rewrite (H x) by now left. rewrite IH; [reflexivity|].
  intros y Hy. apply H. now right.
Qed.

(** A zero bound, of either sign, contributes no filter, whatever the criterion. *)
Lemma zero_bound_contributes_nothing (s : bool) mk filters :
  append_if_float (Some (S754_zero s)) mk filters = append_if_float None mk filters.
Proof. reflexivity. Qed.

(** The same holds through [create_filters], for each of the six numeric
    criteria. *)
Lemma zero_bounds_are_dropped (s : bool) date start_date end_date distance_min
    distance_max velocity_min velocity_max diameter_min diameter_max hazardous :
  let z := Some (S754_zero s) in
  create_filters date start_date end_date z distance_max velocity_min velocity_max
    diameter_min diameter_max hazardous
  = create_filters date start_date end_date None distance_max velocity_min velocity_max
      diameter_min diameter_max hazardous
  /\ create_filters date start_date end_date distance_min z velocity_min velocity_max
       diameter_min diameter_max hazardous
     = create_filters date start_date end_date distance_min None velocity_min velocity_max
         diameter_min diameter_max hazardous
  /\ create_filters date start_date end_date distance_min distance_max z velocity_max
       diameter_min diameter_max hazardous
     = create_filters date start_date end_date distance_min distance_max None velocity_max
         diameter_min diameter_max hazardous
  /\ create_filters date start_date end_date distance_min distance_max velocity_min z
       diameter_min diameter_max hazardous
     = create_filters date start_date end_date distance_min distance_max velocity_min None
         diameter_min diameter_max hazardous
  /\ create_filters date start_date end_date distance_min distance_max velocity_min
       velocity_max z diameter_max hazardous
     = create_filters date start_date end_date distance_min distance_max velocity_min
         velocity_max None diameter_max hazardous
  /\ create_filters date start_date end_date distance_min distance_max velocity_min
       velocity_max diameter_min z hazardous
     = create_filters date start_date end_date distance_min distance_max velocity_min
         velocity_max diameter_min None hazardous.
Proof. repeat split. Qed.

(** A negative limit is refused by [islice]; the claims below are about
    [None], zero and positive limits. *)
Example limit_negative_raises : limit (Source [10; 20; 30]) (Some (-1)) = Raise ValueError.
Proof. reflexivity. Qed.

(** ** The claims *)

(** C1 (evaluation of the code at the failing input).  With [distance_max]
    equal to the literal zero and every other criterion absent,
    [create_filters] returns the empty collection: no filter for the criterion
    is present, and an approach at 0.25 au, which is not within a maximum
    distance of zero, satisfies the collection all the same. *)
Theorem zero_distance_max_produces_no_filter :
  create_filters None None None None (Some zero) None None None None None = []
  /\ (forall b, ~ In (DistanceMax b)
        (create_filters None None None None (Some zero) None None None None None))
  /\ float_le (distance eros_pass) zero = false
  /\ matches (create_filters None None None None (Some zero) None None None None None)
       eros_pass = true.
Proof.
  repeat split; try reflexivity.
  intros b [].
Qed.

(** C2.  The hazardous criterion has three states.  Absent: the collection
    holds no hazardous filter and the outcome does not depend on the hazardous
    flag of the NEO.  [True] or [False]: the collection holds exactly the
    hazardous filter for that value, and that filter is satisfied exactly by
    the approaches whose NEO has the flag equal to it. *)
Theorem hazardous_is_tri_state
    date start_date end_date distance_min distance_max
    velocity_min velocity_max diameter_min diameter_max :
  let filters := create_filters date start_date end_date distance_min distance_max
                   velocity_min velocity_max diameter_min diameter_max in
  (forall h, ~ In (Hazardous h) (filters None))
  /\ (forall a h, matches (filters None) (with_hazardous a h) = matches (filters None) a)
  /\ (forall h : bool,
        In (Hazardous h) (filters (Some h))
        /\ ~ In (Hazardous (negb h)) (filters (Some h))
        /\ forall a, truthy (call (Hazardous h) a) = true <-> hazardous (neo a) = h).
Proof.
  intros filters; unfold filters; repeat split.
  - intros h H. apply in_create_filters in H.
    repeat (destruct H as [H|H]); destruct H as (b & H); intuition congruence.
  - intros a h. unfold matches. apply forallb_ext_in. intros f H.
    apply in_create_filters in H. rewrite !truthy_call.
    repeat (destruct H as [H|H]); destruct H as (b & H);
      try (destruct H as (_ & _ & ->); reflexivity);
      try (destruct H as (_ & ->); reflexivity).
    destruct H as (H & _). discriminate.
  - apply in_create_filters. do 4 right. left. now exists h.
  - intros H. apply in_create_filters in H.
    repeat (destruct H as [H|H]); destruct H as (b & H); try intuition congruence.
    destruct H as ([= <-] & [= E]). now destruct h.
  - rewrite truthy_call. simpl. apply Bool.eqb_true_iff.
  - rewrite truthy_call. simpl. apply Bool.eqb_true_iff.
Qed.

(** C3.  [limit(seq, 0)] and [limit(seq, None)] both return the iterator they
    were given, and pulling from it produces every pending element of [seq],
    in order. *)
Theorem limit_zero_or_None_returns_seq {A : Type} (seq : iter A) :
  limit seq (Some 0) = Return seq
  /\ limit seq None = Return seq
  /\ collect (S (length (items seq))) seq = Some (items seq).
Proof.
  repeat split. apply collect_items. lia.
Qed.

(** C4 as stated fails beyond [sys.maxsize]: for [n = sys.maxsize + 1], which
    is positive, [limit] raises [ValueError] on a three-element sequence, so
    it returns no iterator and produces no prefix of the input. *)
Lemma limit_beyond_maxsize_is_refused :
  0 < sys_maxsize + 1
  /\ limit (Source [10; 20; 30]) (Some (sys_maxsize + 1)) = Raise ValueError
  /\ ~ (exists out produced,
          limit (Source [10; 20; 30]) (Some (sys_maxsize + 1)) = Return out
          /\ collect (S (length (items (Source [10; 20; 30])))) out = Some produced
          /\ produced = firstn (Nat.min (Z.to_nat (sys_maxsize + 1))
                                  (length (items (Source [10; 20; 30]))))
                           (items (Source [10; 20; 30]))).
Proof.
  split; [reflexivity|]. split; [reflexivity|].
  intros (out & produced & H & _). discriminate H.
Qed.

(** C4, amended.  For [n] with [0 < n <= sys.maxsize], [limit(seq, n)] returns
    an iterator that produces at most [n] elements, namely the first
    [min(n, length of seq)] elements of [seq] in their order. *)
Theorem limit_positive_produces_prefix {A : Type} (seq : iter A) (n : Z) :
  0 < n -> n <= sys_maxsize ->
  exists out produced,
    limit seq (Some n) = Return out
    /\ collect (S (length (items seq))) out = Some produced
    /\ Z.of_nat (length produced) <= n
    /\ length produced = Nat.min (Z.to_nat n) (length (items seq))
    /\ produced = firstn (length produced) (items seq)
    /\ exists rest, items seq = produced ++ rest.
Proof.
  intros Hn Hmax.
  exists (Islice seq (Some (Z.to_nat n))), (firstn (Z.to_nat n) (items seq)).
  assert (Hlen : length (firstn (Z.to_nat n) (items seq))
                 = Nat.min (Z.to_nat n) (length (items seq)))
    by apply length_firstn.
  repeat split.
  - now apply limit_in_range.
  - apply (collect_items _ (Islice seq (Some (Z.to_nat n)))). simpl. rewrite Hlen. lia.
  - rewrite Hlen. lia.
  - exact Hlen.
  - rewrite Hlen. destruct (Nat.min_spec (Z.to_nat n) (length (items seq))) as [[_ ->]|[H ->]].
    + reflexivity.
    + now rewrite !firstn_all2 by lia.
  - exists (skipn (Z.to_nat n) (items seq)). symmetry. apply firstn_skipn.
Qed.

Lemma limit_positive_produces_prefix_witness :
  (0 < 2 /\ 2 <= sys_maxsize) /\
  exists out produced,
    limit (Source [10; 20; 30]) (Some 2) = Return out
    /\ collect (S (length (items (Source [10; 20; 30])))) out = Some produced
    /\ Z.of_nat (length produced) <= 2
    /\ length produced = Nat.min (Z.to_nat 2) (length (items (Source [10; 20; 30])))
    /\ produced = firstn (length produced) (items (Source [10; 20; 30]))
    /\ exists rest, items (Source [10; 20; 30]) = produced ++ rest.
Proof.
  split; [split; [lia | unfold sys_maxsize; lia]|].
  apply (limit_positive_produces_prefix (Source [10; 20; 30]) 2);
    [lia | unfold sys_maxsize; lia].
Defined.

(** C9.  With every criterion absent, [create_filters] returns the empty
    collection; every approach satisfies it, and a query with it and no limit
    passes all the approaches through in their original order. *)
Theorem no_criteria_no_constraint :
  create_filters None None None None None None None None None None = []
  /\ (forall a, matches
        (create_filters None None None None None None None None None None) a = true)
  /\ forall approaches,
       query approaches
         (create_filters None None None None None None None None None None) None
       = Return (Source approaches)
       /\ collect (S (length approaches)) (Source approaches) = Some approaches.
Proof.
  repeat split.
  - unfold query. simpl.
    replace (List.filter _ approaches) with approaches; [reflexivity|].
    induction approaches as [|a l IH]; simpl; congruence.
  - apply (collect_items (S (length approaches)) (Source approaches)). simpl. lia.
Qed.

Lemma matches_append_if_float bound mk a :
  matches (append_if_float bound mk []) a = float_criterion bound (fun b => test (mk b) a).
Proof.
  unfold append_if_float, float_criterion.
  destruct bound as [b|]; [destruct (float_bool b)|]; simpl;
    now rewrite ?truthy_call, ?andb_true_r.
Qed.

Lemma matches_append_if_not_None {B : Type} (bound : option B) mk a :
  matches (append_if_not_None bound mk []) a = criterion bound (fun b => test (mk b) a).
Proof.
  destruct bound; simpl; now rewrite ?truthy_call, ?andb_true_r.
Qed.

Lemma matches_append_if_date bound mk a :
  matches (append_if_date bound mk []) a = criterion bound (fun b => test (mk b) a).
Proof.
  destruct bound; simpl; now rewrite ?truthy_call, ?andb_true_r.
Qed.

Lemma matches_create_filters date start_date end_date distance_min distance_max
    velocity_min velocity_max diameter_min diameter_max hazardous a :
  matches (create_filters date start_date end_date distance_min distance_max
             velocity_min velocity_max diameter_min diameter_max hazardous) a
  = all_criteria date start_date end_date distance_min distance_max
      velocity_min velocity_max diameter_min diameter_max hazardous a.
Proof.
  rewrite create_filters_app, !matches_app, !matches_append_if_float,
    !matches_append_if_date, matches_append_if_not_None.
  unfold all_criteria, test. now rewrite !andb_assoc.
Qed.

Lemma matches_false_of_member l f a :
  In f l -> test f a = false -> matches l a = false.
Proof.
  intros Hin Hf. destruct (matches l a) eqn:E; [|reflexivity].
  rewrite matches_true_iff in E. specialize (E f Hin).
  rewrite truthy_call in E. congruence.
Qed.

(** C5.  An approach satisfies the collection returned by [create_filters]
    exactly when the conjunction of the individual criterion predicates holds,
    that is when every filter of the collection passes, and the outcome is the
    same for every permutation of the collection. *)
Theorem filters_combine_by_and
    date start_date end_date distance_min distance_max
    velocity_min velocity_max diameter_min diameter_max hazardous a l :
  Permutation l (create_filters date start_date end_date distance_min distance_max
                   velocity_min velocity_max diameter_min diameter_max hazardous) ->
  matches l a
  = all_criteria date start_date end_date distance_min distance_max
      velocity_min velocity_max diameter_min diameter_max hazardous a
  /\ (matches l a = true <->
      forall f, In f (create_filters date start_date end_date distance_min distance_max
                        velocity_min velocity_max diameter_min diameter_max hazardous) ->
                truthy (call f a) = true).
Proof.
  intros Hperm. rewrite (matches_Permutation _ _ a Hperm). split.
  - apply matches_create_filters.
  - apply matches_true_iff.
Qed.

Lemma filters_combine_by_and_witness :
  Permutation [Hazardous false; DistanceMin (b64 1 (-3))]
    (create_filters None None None (Some (b64 1 (-3))) None None None None None (Some false))
  /\ matches [Hazardous false; DistanceMin (b64 1 (-3))] eros_pass
     = all_criteria None None None (Some (b64 1 (-3))) None None None None None
         (Some false) eros_pass
  /\ (matches [Hazardous false; DistanceMin (b64 1 (-3))] eros_pass = true <->
      forall f, In f (create_filters None None None (Some (b64 1 (-3))) None None None
                        None None (Some false)) ->
                truthy (call f eros_pass) = true).
Proof.
  assert (H : Permutation [Hazardous false; DistanceMin (b64 1 (-3))]
    (create_filters None None None (Some (b64 1 (-3))) None None None None None (Some false)))
    by (vm_compute; apply perm_swap).
  split; [exact H|].
  exact (filters_combine_by_and None None None (Some (b64 1 (-3))) None None None None None
           (Some false) eros_pass _ H).
Defined.

(** C6.  When the NEO of an approach has a NaN diameter, every filter that
    [create_filters] produced for [diameter_min] or for [diameter_max] returns
    [False] on it (calling a filter always returns a value, it cannot raise),
    so the approach does not satisfy the collection. *)
Theorem nan_diameter_never_matches
    date start_date end_date distance_min distance_max
    velocity_min velocity_max diameter_min diameter_max hazardous a f :
  diameter (neo a) = nan ->
  In f (create_filters date start_date end_date distance_min distance_max
          velocity_min velocity_max diameter_min diameter_max hazardous) ->
  on_diameter f = true ->
  call f a = VBool false
  /\ truthy (call f a) = false
  /\ matches (create_filters date start_date end_date distance_min distance_max
                velocity_min velocity_max diameter_min diameter_max hazardous) a = false.
Proof.
  intros Hnan Hin Hf.
  assert (Ht : test f a = false).
  { destruct f; try discriminate Hf; simpl; unfold float_ge, float_le;
      now rewrite Hnan, float_compare_nan_l. }
  repeat split.
  - unfold call. now rewrite Ht.
  - now rewrite truthy_call.
  - exact (matches_false_of_member _ _ _ Hin Ht).
Qed.

Lemma nan_diameter_never_matches_witness :
  (diameter (neo unmeasured_pass) = nan
   /\ In (DiameterMin (b64 1 0))
        (create_filters None None None None None None None
           (Some (b64 1 0)) (Some (b64 5 0)) None)
   /\ on_diameter (DiameterMin (b64 1 0)) = true)
  /\ call (DiameterMin (b64 1 0)) unmeasured_pass = VBool false
  /\ truthy (call (DiameterMin (b64 1 0)) unmeasured_pass) = false
  /\ matches (create_filters None None None None None None None
                (Some (b64 1 0)) (Some (b64 5 0)) None) unmeasured_pass = false.
Proof.
  assert (Hin : In (DiameterMin (b64 1 0))
        (create_filters None None None None None None None
           (Some (b64 1 0)) (Some (b64 5 0)) None))
    by (simpl; left; reflexivity).
  split; [repeat split; exact Hin|].
  apply (nan_diameter_never_matches None None None None None None None
           (Some (b64 1 0)) (Some (b64 5 0)) None unmeasured_pass
           (DiameterMin (b64 1 0)));
    [reflexivity | exact Hin | reflexivity].
Defined.

Lemma nan_diameter_max_example :
  In (DiameterMax (b64 5 0))
    (create_filters None None None None None None None (Some (b64 1 0)) (Some (b64 5 0)) None)
  /\ call (DiameterMax (b64 5 0)) unmeasured_pass = VBool false.
Proof. split; [simpl; right; left; reflexivity | reflexivity]. Qed.

Lemma date_ge_iff a b : date_ge a b = true <-> on_or_before b a.
Proof.
  unfold date_ge, date_cmp, on_or_before. destruct a as [y m d], b as [y' m' d']; simpl.
  split.
  - intros H; order_cases; try discriminate; lia.
  - intros H; order_cases; try reflexivity; lia.
Qed.

Lemma date_le_iff a b : date_le a b = true <-> on_or_before a b.
Proof.
  unfold date_le, date_cmp, on_or_before. destruct a as [y m d], b as [y' m' d']; simpl.
  split.
  - intros H; order_cases; try discriminate; lia.
  - intros H; order_cases; try reflexivity; lia.
Qed.

(** C7.  The three date filters read only the calendar date of the time of an
    approach: [date] passes iff that calendar date equals the bound,
    [start_date] iff the bound is on or before it, [end_date] iff it is on or
    before the bound; moving the approach to another time of the same day
    changes none of the three conditions; and each filter is in the collection
    whenever its bound is supplied. *)
Theorem date_filters_read_calendar_date (d : date) (a : CloseApproach) :
  (truthy (call (Date d) a) = true <-> datetime_date (time a) = d)
  /\ (truthy (call (StartDate d) a) = true <-> on_or_before d (datetime_date (time a)))
  /\ (truthy (call (EndDate d) a) = true <-> on_or_before (datetime_date (time a)) d)
  /\ (forall h m s,
        test (Date d) (with_time_of_day a h m s) = test (Date d) a
        /\ test (StartDate d) (with_time_of_day a h m s) = test (StartDate d) a
        /\ test (EndDate d) (with_time_of_day a h m s) = test (EndDate d) a)
  /\ (forall date start_date end_date distance_min distance_max
        velocity_min velocity_max diameter_min diameter_max hazardous,
        In (Date d) (create_filters (Some d) start_date end_date distance_min
                       distance_max velocity_min velocity_max diameter_min
                       diameter_max hazardous)
        /\ In (StartDate d) (create_filters date (Some d) end_date distance_min
                       distance_max velocity_min velocity_max diameter_min
                       diameter_max hazardous)
        /\ In (EndDate d) (create_filters date start_date (Some d) distance_min
                       distance_max velocity_min velocity_max diameter_min
                       diameter_max hazardous)).
Proof.
  split; [|split; [|split; [|split]]].
  - rewrite truthy_call. apply date_eq_true_iff.
  - rewrite truthy_call. apply date_ge_iff.
  - rewrite truthy_call. apply date_le_iff.
  - intros h m s. repeat split.
  - intros. split; [|split]; apply in_create_filters;
      [do 7 right; left | do 8 right; left | do 9 right]; now exists d.
Qed.

Lemma float_criteria_inverted lo hi x :
  inverted_floats lo hi = true ->
  float_criterion lo (fun b => float_ge x b) = true ->
  float_criterion hi (fun b => float_le x b) = true -> False.
Proof.
  unfold inverted_floats, float_criterion.
  destruct lo as [l|], hi as [h|]; try discriminate.
  rewrite !andb_true_iff. intros [[-> ->] Hgt] Hge Hle.
  exact (float_between_inverted x l h Hge Hle Hgt).
Qed.

(** No approach passes both filters of an inverted pair. *)
Lemma inverted_pair_never_both_pass lo hi a :
  float_gt lo hi = true ->
  ~ (truthy (call (DistanceMin lo) a) = true /\ truthy (call (DistanceMax hi) a) = true)
  /\ ~ (truthy (call (VelocityMin lo) a) = true /\ truthy (call (VelocityMax hi) a) = true)
  /\ ~ (truthy (call (DiameterMin lo) a) = true /\ truthy (call (DiameterMax hi) a) = true).
Proof.
  intros Hgt. rewrite !truthy_call. simpl.
  repeat split; intros [Hge Hle]; exact (float_between_inverted _ lo hi Hge Hle Hgt).
Qed.

Lemma matches_false_has_culprit l a :
  matches l a = false -> exists f, In f l /\ call f a = VBool false.
Proof.
  unfold matches. induction l as [|f l IH]; simpl; intros H; [discriminate|].
  apply andb_false_iff in H. destruct H as [H|H].
  - exists f. split; [now left|]. unfold call in *. now destruct (test f a).
  - destruct (IH H) as (g & Hg & Hc). exists g. split; [now right|exact Hc].
Qed.

(** C8.  When a minimum exceeds the matching maximum, both bounds being
    nonzero (distance, velocity or diameter) or both being dates,
    [create_filters] still returns a collection, every filter of which returns
    a value on every approach, and no approach satisfies the collection: the
    matched set is empty. *)
Theorem inverted_bounds_match_nothing
    date start_date end_date distance_min distance_max
    velocity_min velocity_max diameter_min diameter_max hazardous :
  inverted_floats distance_min distance_max
  || inverted_floats velocity_min velocity_max
  || inverted_floats diameter_min diameter_max
  || inverted_dates start_date end_date = true ->
  let filters := create_filters date start_date end_date distance_min distance_max
                   velocity_min velocity_max diameter_min diameter_max hazardous in
  (forall a, matches filters a = false)
  /\ (forall a, exists f, In f filters /\ call f a = VBool false)
  /\ (forall approaches, List.filter (matches filters) approaches = []).
Proof.
  intros Hinv filters.
  assert (Hnone : forall a, matches filters a = false).
  { intros a. unfold filters. rewrite matches_create_filters.
    destruct (all_criteria _ _ _ _ _ _ _ _ _ _ a) eqn:E; [exfalso|reflexivity].
    unfold all_criteria in E. rewrite !andb_true_iff in E.
    destruct E as [[[[[[[[[Hdmin Hdmax] Hvmin] Hvmax] _] Hmin] Hmax] _] Hstart] Hend].
    rewrite !orb_true_iff in Hinv. destruct Hinv as [[[H|H]|H]|H].
    - exact (float_criteria_inverted _ _ _ H Hdmin Hdmax).
    - exact (float_criteria_inverted _ _ _ H Hvmin Hvmax).
    - exact (float_criteria_inverted _ _ _ H Hmin Hmax).
    - unfold inverted_dates in H.
      destruct start_date as [l|], end_date as [h|]; try discriminate.
      exact (date_between_inverted _ l h Hstart Hend H). }
  assert (Hempty : forall approaches, List.filter (matches filters) approaches = []).
  { induction approaches as [|a l IH]; simpl; [reflexivity|]. now rewrite Hnone. }
  repeat split; auto.
  intros a. apply matches_false_has_culprit, Hnone.
Qed.

Lemma inverted_bounds_match_nothing_witness :
  inverted_floats (Some (b64 1 0)) (Some (b64 1 (-1)))
  || inverted_floats None None
  || inverted_floats None None
  || inverted_dates None None = true
  /\ (forall a, matches (create_filters None None None (Some (b64 1 0)) (Some (b64 1 (-1)))
                           None None None None None) a = false)
  /\ List.filter (matches (create_filters None None None (Some (b64 1 0))
                             (Some (b64 1 (-1))) None None None None None))
       [eros_pass; unmeasured_pass] = [].
Proof.
  split; [reflexivity|].
  pose proof (inverted_bounds_match_nothing None None None (Some (b64 1 0))
                (Some (b64 1 (-1))) None None None None None eq_refl) as H.
  split; [apply H | apply (proj2 (proj2 H))].
Defined.

Lemma float_ge_iff x b : float_ge x b = true <-> at_least x b.
Proof.
  unfold float_ge, at_least.
  destruct (SFcompare x b) as [[| |]|]; split; intros H; try reflexivity;
    try discriminate; try (now left); try (now right);
    destruct H as [H|H]; discriminate.
Qed.

Lemma float_le_iff x b : float_le x b = true <-> at_most x b.
Proof.
  unfold float_le, at_most.
  destruct (SFcompare x b) as [[| |]|]; split; intros H; try reflexivity;
    try discriminate; try (now left); try (now right);
    destruct H as [H|H]; discriminate.
Qed.

Lemma call_approach_iff f a : call f a = VApproach a <-> test f a = true.
Proof.
  unfold call. destruct (test f a); split; intros H; try reflexivity; discriminate.
Qed.

(** C10.  A filter returned by [create_filters], called on an approach,
    returns that very approach or the boolean [False], never the boolean
    [True], so its result is truthy exactly when it is the approach; and the
    filter is the one of a supplied criterion, returning the approach exactly
    when the comparison of that criterion holds between the attribute of the
    approach and the bound supplied: at least a minimum, at most a maximum,
    the hazardous flag equal to the one asked for, the calendar date equal to
    [date], on or after [start_date], on or before [end_date]. *)
Theorem filter_returns_approach_or_False
    date start_date end_date distance_min distance_max
    velocity_min velocity_max diameter_min diameter_max hazardous f a :
  In f (create_filters date start_date end_date distance_min distance_max
          velocity_min velocity_max diameter_min diameter_max hazardous) ->
  (call f a = VApproach a \/ call f a = VBool false)
  /\ call f a <> VBool true
  /\ (truthy (call f a) = true <-> call f a = VApproach a)
  /\ ((exists b, distance_min = Some b /\ f = DistanceMin b
                 /\ (call f a = VApproach a <-> at_least (distance a) b))
      \/ (exists b, distance_max = Some b /\ f = DistanceMax b
                    /\ (call f a = VApproach a <-> at_most (distance a) b))
      \/ (exists b, velocity_min = Some b /\ f = VelocityMin b
                    /\ (call f a = VApproach a <-> at_least (velocity a) b))
      \/ (exists b, velocity_max = Some b /\ f = VelocityMax b
                    /\ (call f a = VApproach a <-> at_most (velocity a) b))
      \/ (exists h, hazardous = Some h /\ f = Hazardous h
                    /\ (call f a = VApproach a <-> Models.hazardous (neo a) = h))
      \/ (exists b, diameter_min = Some b /\ f = DiameterMin b
                    /\ (call f a = VApproach a <-> at_least (diameter (neo a)) b))
      \/ (exists b, diameter_max = Some b /\ f = DiameterMax b
                    /\ (call f a = VApproach a <-> at_most (diameter (neo a)) b))
      \/ (exists d, date = Some d /\ f = Date d
                    /\ (call f a = VApproach a <-> datetime_date (time a) = d))
      \/ (exists d, start_date = Some d /\ f = StartDate d
                    /\ (call f a = VApproach a
                        <-> on_or_before d (datetime_date (time a))))
      \/ (exists d, end_date = Some d /\ f = EndDate d
                    /\ (call f a = VApproach a
                        <-> on_or_before (datetime_date (time a)) d))).
Proof.
  intros Hin.
  split; [unfold call; destruct (test f a); auto|].
  split; [unfold call; destruct (test f a); discriminate|].
  split; [rewrite truthy_call; symmetry; apply call_approach_iff|].
  apply in_create_filters in Hin.
  destruct Hin as [(b & Hb & _ & ->)|[(b & Hb & _ & ->)|[(b & Hb & _ & ->)
    |[(b & Hb & _ & ->)|[(h & Hb & ->)|[(b & Hb & _ & ->)|[(b & Hb & _ & ->)
    |[(d & Hb & ->)|[(d & Hb & ->)|(d & Hb & ->)]]]]]]]]].
  - left. exists b. repeat split; try assumption;
      rewrite call_approach_iff; simpl; apply float_ge_iff.
  - right; left. exists b. repeat split; try assumption;
      rewrite call_approach_iff; simpl; apply float_le_iff.
  - do 2 right; left. exists b. repeat split; try assumption;
      rewrite call_approach_iff; simpl; apply float_ge_iff.
  - do 3 right; left. exists b. repeat split; try assumption;
      rewrite call_approach_iff; simpl; apply float_le_iff.
  - do 4 right; left. exists h. repeat split; try assumption;
      rewrite call_approach_iff; simpl; apply Bool.eqb_true_iff.
  - do 5 right; left. exists b. repeat split; try assumption;
      rewrite call_approach_iff; simpl; apply float_ge_iff.
  - do 6 right; left. exists b. repeat split; try assumption;
      rewrite call_approach_iff; simpl; apply float_le_iff.
  - do 7 right; left. exists d. repeat split; try assumption;
      rewrite call_approach_iff; simpl; apply date_eq_true_iff.
  - do 8 right; left. exists d. repeat split; try assumption;
      rewrite call_approach_iff; simpl; apply date_ge_iff.
  - do 9 right. exists d. repeat split; try assumption;
      rewrite call_approach_iff; simpl; apply date_le_iff.
Qed.

Lemma filter_returns_approach_or_False_witness :
  In (DistanceMax (b64 1 (-1)))
    (create_filters None None None None (Some (b64 1 (-1))) None None None None None)
  /\ at_most (distance eros_pass) (b64 1 (-1))
  /\ call (DistanceMax (b64 1 (-1))) eros_pass = VApproach eros_pass
  /\ truthy (call (DistanceMax (b64 1 (-1))) eros_pass) = true.
Proof.
  assert (Hin : In (DistanceMax (b64 1 (-1)))
    (create_filters None None None None (Some (b64 1 (-1))) None None None None None))
    by (simpl; left; reflexivity).
  assert (Hle : at_most (distance eros_pass) (b64 1 (-1))) by (left; reflexivity).
  split; [exact Hin|]. split; [exact Hle|].
  destruct (filter_returns_approach_or_False None None None None (Some (b64 1 (-1)))
              None None None None None (DistanceMax (b64 1 (-1))) eros_pass Hin)
    as (_ & _ & Htruthy & Hcrit).
  assert (Hcall : call (DistanceMax (b64 1 (-1))) eros_pass = VApproach eros_pass).
  { destruct Hcrit as [(b & H & _)|[(b & _ & Hf & Hiff)|[(b & H & _)|[(b & H & _)
      |[(b & H & _)|[(b & H & _)|[(b & H & _)|[(b & H & _)|[(b & H & _)
      |(b & H & _)]]]]]]]]]; try discriminate H.
    injection Hf as <-. apply Hiff. exact Hle. }
  split; [exact Hcall|]. apply Htruthy. exact Hcall.
Defined.

(** The same filter with a tighter bound returns [False] on that approach. *)
Example filter_returns_False_example :
  call (DistanceMax (b64 1 (-3))) eros_pass = VBool false
  /\ truthy (call (DistanceMax (b64 1 (-3))) eros_pass) = false.
Proof. split; reflexivity. Qed.

(** The scenario of the specification: with a maximum distance of one half the
    pass of Eros is returned, with one eighth it is not. *)
Example eros_scenario :
  List.filter (matches (create_filters None None None None (Some (b64 1 (-1)))
                          None None None None None)) [eros_pass] = [eros_pass]
  /\ List.filter (matches (create_filters None None None None (Some (b64 1 (-3)))
                             None None None None None)) [eros_pass] = [].
Proof. split; reflexivity. Qed.

(** ** Further properties of [filters.py] *)

Lemma float_le_trans x y z :
  float_le x y = true -> float_le y z = true -> float_le x z = true.
Proof.
  unfold float_le.
  destruct x as [sx|sx| |sx mx ex], y as [sy|sy| |sy my ey], z as [sz|sz| |sz mz ez];
    simpl; try discriminate; try reflexivity;
    try destruct sx; try destruct sy; try destruct sz; simpl;
    try discriminate; try reflexivity;
    intros H1 H2; order_cases; simpl in *; try discriminate; try reflexivity;
    subst; lia.
Qed.

Lemma float_ge_le x y : float_ge x y = float_le y x.
Proof.
  unfold float_ge, float_le.
  destruct x as [sx|sx| |sx mx ex], y as [sy|sy| |sy my ey];
    simpl; try reflexivity;
    try destruct sx; try destruct sy; simpl; try reflexivity;
    rewrite (Z.compare_antisym ex ey);
    destruct (ex ?= ey); simpl; try reflexivity;
    change (Pos.compare_cont Eq my mx) with (Pos.compare my mx);
    change (Pos.compare_cont Eq mx my) with (Pos.compare mx my);
    rewrite (Pos.compare_antisym mx my); now destruct (mx ?= my)%positive.
Qed.

Lemma date_le_trans x y z :
  date_le x y = true -> date_le y z = true -> date_le x z = true.
Proof.
  rewrite !date_le_iff. unfold on_or_before. lia.
Qed.

Lemma date_ge_le x y : date_ge x y = date_le y x.
Proof.
  apply eq_true_iff_eq. rewrite date_ge_iff, date_le_iff. reflexivity.
Qed.

Lemma date_eq_ge_le x d : date_eq x d = date_ge x d && date_le x d.
Proof.
  apply eq_true_iff_eq.
  rewrite andb_true_iff, date_eq_true_iff, date_ge_iff, date_le_iff.
  unfold on_or_before. destruct x as [y m dd], d as [y' m' d']; simpl.
  split.
  - intros [= -> -> ->]. lia.
  - intros [H1 H2]. f_equal; lia.
Qed.

(** *** Shape of the collection *)

Lemma sorted_from_piece (i : nat) piece rest :
  (piece = [] \/ exists f, piece = [f] /\ rank f = i) ->
  StronglySorted lt (map rank rest) /\ Forall (fun f => (S i <= rank f)%nat) rest ->
  StronglySorted lt (map rank (piece ++ rest))
  /\ Forall (fun f => (i <= rank f)%nat) (piece ++ rest).
Proof.
  intros Hp [Hs Hf].
  assert (Hf' : Forall (fun f => (i <= rank f)%nat) rest)
    by (eapply Forall_impl; [|exact Hf]; simpl; intros; lia).
  destruct Hp as [->|(f & -> & Hr)]; simpl; [now split|].
  split.
  - constructor; [exact Hs|]. rewrite Forall_map.
    eapply Forall_impl; [|exact Hf]. simpl. intros; lia.
  - constructor; [lia|exact Hf'].
Qed.

Lemma append_if_float_piece bound mk (i : nat) :
  (forall b, rank (mk b) = i) ->
  append_if_float bound mk [] = []
  \/ exists f, append_if_float bound mk [] = [f] /\ rank f = i.
Proof.
  intros Hr. unfold append_if_float.
  destruct bound as [b|]; [destruct (float_bool b)|]; simpl; auto.
  right. now exists (mk b).
Qed.

Lemma append_if_date_piece bound mk (i : nat) :
  (forall b, rank (mk b) = i) ->
  append_if_date bound mk [] = []
  \/ exists f, append_if_date bound mk [] = [f] /\ rank f = i.
Proof.
  intros Hr. destruct bound as [b|]; simpl; auto. right. now exists (mk b).
Qed.

Lemma append_if_not_None_piece {B : Type} (bound : option B) mk (i : nat) :
  (forall b, rank (mk b) = i) ->
  append_if_not_None bound mk [] = []
  \/ exists f, append_if_not_None bound mk [] = [f] /\ rank f = i.
Proof.
  intros Hr. destruct bound as [b|]; simpl; auto. right. now exists (mk b).
Qed.

Lemma rank_lt_10 f : (rank f < 10)%nat.
Proof. destruct f; simpl; lia. Qed.

(** X1.  Whatever the arguments, the filters of the collection come in the
    order of the source (distance, velocity, hazardous, diameter, date,
    start date, end date), with at most one filter per criterion and so at
    most ten filters. *)
Theorem create_filters_in_source_order
    date start_date end_date distance_min distance_max
    velocity_min velocity_max diameter_min diameter_max hazardous :
  let filters := create_filters date start_date end_date distance_min distance_max
                   velocity_min velocity_max diameter_min diameter_max hazardous in
  StronglySorted lt (map rank filters)
  /\ NoDup (map rank filters)
  /\ (length filters <= 10)%nat.
Proof.
  intros filters.
  assert (H : StronglySorted lt (map rank filters)
              /\ Forall (fun f => (0 <= rank f)%nat) filters).
  { unfold filters. rewrite create_filters_app.
    apply sorted_from_piece; [now apply append_if_float_piece|].
    apply sorted_from_piece; [now apply append_if_float_piece|].
    apply sorted_from_piece; [now apply append_if_float_piece|].
    apply sorted_from_piece; [now apply append_if_float_piece|].
    apply sorted_from_piece; [now apply append_if_not_None_piece|].
    apply sorted_from_piece; [now apply append_if_float_piece|].
    apply sorted_from_piece; [now apply append_if_float_piece|].
    apply sorted_from_piece; [now apply append_if_date_piece|].
    apply sorted_from_piece; [now apply append_if_date_piece|].
    rewrite <- (app_nil_r (append_if_date end_date EndDate [])).
    apply sorted_from_piece; [now apply append_if_date_piece|].
    split; constructor. }
  destruct H as [Hs Hlo].
  assert (Hnd : NoDup (map rank filters)).
  { clear Hlo. induction Hs as [|x l Hs IH Hall]; constructor; [|exact IH].
    intros Hin. rewrite Forall_forall in Hall. specialize (Hall x Hin). lia. }
  split; [exact Hs|]. split; [exact Hnd|].
  - rewrite <- (length_map rank filters).
    change 10%nat with (length (seq 0 10)).
    apply NoDup_incl_length; [exact Hnd|].
    intros r Hr. apply in_map_iff in Hr. destruct Hr as (f & <- & _).
    apply in_seq. pose proof (rank_lt_10 f). lia.
Qed.

(** *** NaN bounds *)

Lemma float_criterion_nan_ge x :
  float_criterion (Some nan) (fun b => float_ge x b) = false.
Proof. simpl. unfold float_ge. now rewrite float_compare_nan_r. Qed.

Lemma float_criterion_nan_le x :
  float_criterion (Some nan) (fun b => float_le x b) = false.
Proof. simpl. unfold float_le. now rewrite float_compare_nan_r. Qed.

Lemma is_nan_bound_true bound : is_nan_bound bound = true -> bound = Some nan.
Proof. destruct bound as [[]|]; simpl; intros H; try discriminate; reflexivity. Qed.

(** X2.  A NaN bound is truthy, so its filter is appended, and no approach
    passes it: as soon as one of the six numeric bounds is NaN, no approach
    satisfies the collection. *)
Theorem nan_bound_matches_nothing
    date start_date end_date distance_min distance_max
    velocity_min velocity_max diameter_min diameter_max hazardous a :
  is_nan_bound distance_min || is_nan_bound distance_max
  || is_nan_bound velocity_min || is_nan_bound velocity_max
  || is_nan_bound diameter_min || is_nan_bound diameter_max = true ->
  matches (create_filters date start_date end_date distance_min distance_max
             velocity_min velocity_max diameter_min diameter_max hazardous) a = false.
Proof.
  intros Hnan. rewrite matches_create_filters.
  destruct (all_criteria _ _ _ _ _ _ _ _ _ _ a) eqn:E; [exfalso|reflexivity].
  unfold all_criteria in E. rewrite !andb_true_iff in E.
  destruct E as [[[[[[[[[Hdmin Hdmax] Hvmin] Hvmax] _] Hmin] Hmax] _] _] _].
  rewrite !orb_true_iff in Hnan.
  destruct Hnan as [[[[[H|H]|H]|H]|H]|H]; apply is_nan_bound_true in H; subst;
    rewrite ?float_criterion_nan_ge, ?float_criterion_nan_le in *; discriminate.
Qed.

Lemma nan_bound_matches_nothing_witness :
  is_nan_bound None || is_nan_bound (Some nan)
  || is_nan_bound None || is_nan_bound None
  || is_nan_bound None || is_nan_bound None = true
  /\ matches (create_filters None None None None (Some nan) None None None None None)
       eros_pass = false.
Proof.
  split; [reflexivity|].
  apply (nan_bound_matches_nothing None None None None (Some nan) None None None None None
           eros_pass).
  reflexivity.
Defined.

(** *** Relaxing and combining criteria *)

Lemma relaxes_min_keeps loose tight x :
  relaxes_min loose tight = true ->
  float_criterion tight (fun b => float_ge x b) = true ->
  float_criterion loose (fun b => float_ge x b) = true.
Proof.
  unfold relaxes_min, float_criterion.
  destruct loose as [lo|]; [|reflexivity].
  destruct (float_bool lo); [|reflexivity]. simpl.
  destruct tight as [lo'|]; [|discriminate].
  rewrite andb_true_iff. intros [-> Hle]. rewrite !float_ge_le.
  intros Hx. exact (float_le_trans _ _ _ Hle Hx).
Qed.

Lemma relaxes_max_keeps loose tight x :
  relaxes_max loose tight = true ->
  float_criterion tight (fun b => float_le x b) = true ->
  float_criterion loose (fun b => float_le x b) = true.
Proof.
  unfold relaxes_max, float_criterion.
  destruct loose as [hi|]; [|reflexivity].
  destruct (float_bool hi); [|reflexivity]. simpl.
  destruct tight as [hi'|]; [|discriminate].
  rewrite andb_true_iff. intros [-> Hle].
  intros Hx. exact (float_le_trans _ _ _ Hx Hle).
Qed.

(** X3.  Relaxing criteria never loses a match: when every criterion of one
    call is absent, dropped as zero, equal (date, hazardous) or no tighter
    (a lower minimum or start date, a higher maximum or end date) than in
    another call, every approach that satisfies the collection of the tighter
    call satisfies the collection of the looser one. *)
Theorem relaxed_criteria_keep_matches
    date start_date end_date distance_min distance_max
    velocity_min velocity_max diameter_min diameter_max hazardous
    date' start_date' end_date' distance_min' distance_max'
    velocity_min' velocity_max' diameter_min' diameter_max' hazardous' a :
  relaxes_date date date' = true ->
  relaxes_start start_date start_date' = true ->
  relaxes_end end_date end_date' = true ->
  relaxes_min distance_min distance_min' = true ->
  relaxes_max distance_max distance_max' = true ->
  relaxes_min velocity_min velocity_min' = true ->
  relaxes_max velocity_max velocity_max' = true ->
  relaxes_min diameter_min diameter_min' = true ->
  relaxes_max diameter_max diameter_max' = true ->
  relaxes_hazardous hazardous hazardous' = true ->
  matches (create_filters date' start_date' end_date' distance_min' distance_max'
             velocity_min' velocity_max' diameter_min' diameter_max' hazardous') a = true ->
  matches (create_filters date start_date end_date distance_min distance_max
             velocity_min velocity_max diameter_min diameter_max hazardous) a = true.
Proof.
  intros Hd Hs He Hdmin Hdmax Hvmin Hvmax Hmin Hmax Hh.
  rewrite !matches_create_filters. unfold all_criteria.
  rewrite !andb_true_iff.
  intros [[[[[[[[[T1 T2] T3] T4] T5] T6] T7] T8] T9] T10].
  repeat split.
  - exact (relaxes_min_keeps _ _ _ Hdmin T1).
  - exact (relaxes_max_keeps _ _ _ Hdmax T2).
  - exact (relaxes_min_keeps _ _ _ Hvmin T3).
  - exact (relaxes_max_keeps _ _ _ Hvmax T4).
  - destruct hazardous as [h|]; [|reflexivity].
    destruct hazardous' as [h'|]; [|discriminate]. simpl in *.
    apply Bool.eqb_prop in Hh. now subst.
  - exact (relaxes_min_keeps _ _ _ Hmin T6).
  - exact (relaxes_max_keeps _ _ _ Hmax T7).
  - destruct date as [d|]; [|reflexivity].
    destruct date' as [d'|]; [|discriminate]. simpl in *.
    apply date_eq_true_iff in Hd. now subst.
  - destruct start_date as [d|]; [|reflexivity].
    destruct start_date' as [d'|]; [|discriminate]. simpl in *.
    rewrite date_ge_le in *. exact (date_le_trans _ _ _ Hs T9).
  - destruct end_date as [d|]; [|reflexivity].
    destruct end_date' as [d'|]; [|discriminate]. simpl in *.
    exact (date_le_trans _ _ _ T10 He).
Qed.

Lemma relaxed_criteria_keep_matches_witness :
  (relaxes_date None None = true
   /\ relaxes_start None (Some (mkdate 2019 12 31)) = true
   /\ relaxes_end None None = true
   /\ relaxes_min None (Some (b64 1 (-3))) = true
   /\ relaxes_max (Some (b64 1 0)) (Some (b64 1 (-1))) = true
   /\ relaxes_min None None = true
   /\ relaxes_max None None = true
   /\ relaxes_min None None = true
   /\ relaxes_max None None = true
   /\ relaxes_hazardous None (Some false) = true
   /\ matches (create_filters None (Some (mkdate 2019 12 31)) None (Some (b64 1 (-3)))
                 (Some (b64 1 (-1))) None None None None (Some false)) eros_pass = true)
  /\ matches (create_filters None None None None (Some (b64 1 0)) None None None None None)
       eros_pass = true.
Proof.
  split; [repeat split|].
  apply (relaxed_criteria_keep_matches
           None None None None (Some (b64 1 0)) None None None None None
           None (Some (mkdate 2019 12 31)) None (Some (b64 1 (-3))) (Some (b64 1 (-1)))
           None None None None (Some false) eros_pass); reflexivity.
Defined.

(** X4.  Asking for a date is the same as asking for the one-day range that
    starts and ends on it: with the other seven criteria fixed, [date=d] and
    [start_date=d, end_date=d] are satisfied by the same approaches. *)
Theorem date_is_one_day_range (d : date)
    distance_min distance_max velocity_min velocity_max
    diameter_min diameter_max hazardous a :
  matches (create_filters (Some d) None None distance_min distance_max
             velocity_min velocity_max diameter_min diameter_max hazardous) a
  = matches (create_filters None (Some d) (Some d) distance_min distance_max
               velocity_min velocity_max diameter_min diameter_max hazardous) a.
Proof.
  rewrite !matches_create_filters. unfold all_criteria. simpl criterion.
  rewrite date_eq_ge_le, !andb_true_r, <- !andb_assoc. reflexivity.
Qed.

(** X5.  The two hazardous queries split the unconstrained one: with the
    other nine criteria fixed, an approach satisfies the collection built with
    [hazardous=None] iff it satisfies the one built with [hazardous=True] or
    the one built with [hazardous=False], and it never satisfies both. *)
Theorem hazardous_queries_split
    date start_date end_date distance_min distance_max
    velocity_min velocity_max diameter_min diameter_max a :
  let m := fun hazardous =>
    matches (create_filters date start_date end_date distance_min distance_max
               velocity_min velocity_max diameter_min diameter_max hazardous) a in
  m None = m (Some true) || m (Some false)
  /\ m (Some true) && m (Some false) = false
  /\ m (Some (hazardous (neo a))) = m None.
Proof.
  intros m; unfold m. rewrite !matches_create_filters. unfold all_criteria.
  simpl criterion at 1.
  generalize (float_criterion distance_min (fun b => float_ge (distance a) b)
              && float_criterion distance_max (fun b => float_le (distance a) b)
              && float_criterion velocity_min (fun b => float_ge (velocity a) b)
              && float_criterion velocity_max (fun b => float_le (velocity a) b)).
  generalize (float_criterion diameter_min (fun b => float_ge (diameter (neo a)) b)).
  generalize (float_criterion diameter_max (fun b => float_le (diameter (neo a)) b)).
  generalize (criterion date (fun d => date_eq (datetime_date (time a)) d)).
  generalize (criterion start_date (fun d => date_ge (datetime_date (time a)) d)).
  generalize (criterion end_date (fun d => date_le (datetime_date (time a)) d)).
  simpl. intros b1 b2 b3 b4 b5 b6.
  destruct (hazardous (neo a)), b1, b2, b3, b4, b5, b6; repeat split.
Qed.

(** *** Further properties of [limit] *)

(** X6.  [limit] raises exactly when the limit is an integer that is negative
    or greater than [sys.maxsize], and the exception is the [ValueError] of
    [islice]; for [None] and for every integer from 0 to [sys.maxsize] it
    returns an iterator. *)
Theorem limit_raises_iff_out_of_range {A : Type} (seq : iter A) (n : option Z) :
  (limit seq n = Raise ValueError <->
   exists k, n = Some k /\ (k < 0 \/ sys_maxsize < k))
  /\ ((exists out, limit seq n = Return out) <->
      n = None \/ exists k, n = Some k /\ 0 <= k <= sys_maxsize).
Proof.
  unfold limit, islice, eq_zero, is_None.
  destruct n as [k|]; simpl.
  - destruct (Z.eqb_spec k 0) as [->|Hk]; simpl.
    + split; split.
      * discriminate.
      * intros (k & [= <-] & [Hk|Hk]); [lia|discriminate Hk].
      * intros _. right. exists 0. split; [reflexivity|]. split; [lia|discriminate].
      * intros _. now exists seq.
    + destruct (Z.ltb_spec k 0); simpl; [|destruct (Z.ltb_spec sys_maxsize k)];
        split; split.
      * intros _. exists k. split; [reflexivity|now left].
      * reflexivity.
      * intros (out & H'). discriminate.
      * intros [H'|(k' & [= <-] & H')]; [discriminate|lia].
      * intros _. exists k. split; [reflexivity|now right].
      * reflexivity.
      * intros (out & H'). discriminate.
      * intros [H'|(k' & [= <-] & H')]; [discriminate|lia].
      * discriminate.
      * intros (k' & [= <-] & H'). lia.
      * intros _. right. exists k. split; [reflexivity|lia].
      * intros _. eexists. reflexivity.
  - split; split.
    + discriminate.
    + intros (k & H & _). discriminate.
    + intros _. now left.
    + intros _. now exists seq.
Qed.

(** X7.  Limits compose to the smaller one: for [n] and [m] from 1 to
    [sys.maxsize], limiting to [n] and then to [m] produces the first
    [min(n, m)] elements, the same elements as limiting once to [min(n, m)]. *)
Theorem limit_of_limit_is_min {A : Type} (seq : iter A) (n m : Z) :
  0 < n -> n <= sys_maxsize -> 0 < m -> m <= sys_maxsize ->
  exists inner outer once,
    limit seq (Some n) = Return inner
    /\ limit inner (Some m) = Return outer
    /\ limit seq (Some (Z.min n m)) = Return once
    /\ collect (S (length (items seq))) outer
       = Some (firstn (Z.to_nat (Z.min n m)) (items seq))
    /\ collect (S (length (items seq))) once
       = Some (firstn (Z.to_nat (Z.min n m)) (items seq)).
Proof.
  intros Hn Hnmax Hm Hmmax.
  exists (Islice seq (Some (Z.to_nat n))),
         (Islice (Islice seq (Some (Z.to_nat n))) (Some (Z.to_nat m))),
         (Islice seq (Some (Z.to_nat (Z.min n m)))).
  assert (Hitems : items (Islice (Islice seq (Some (Z.to_nat n))) (Some (Z.to_nat m)))
                   = firstn (Z.to_nat (Z.min n m)) (items seq)).
  { simpl. rewrite firstn_firstn. f_equal. lia. }
  repeat split.
  - now apply limit_in_range.
  - now apply limit_in_range.
  - apply limit_in_range; lia.
  - rewrite <- Hitems. apply collect_items. rewrite Hitems, length_firstn. lia.
  - apply (collect_items _ (Islice seq (Some (Z.to_nat (Z.min n m))))).
    simpl. rewrite length_firstn. lia.
Qed.

Lemma limit_of_limit_is_min_witness :
  (0 < 3 /\ 3 <= sys_maxsize /\ 0 < 2 /\ 2 <= sys_maxsize) /\
  exists inner outer once,
    limit (Source [10; 20; 30; 40]) (Some 3) = Return inner
    /\ limit inner (Some 2) = Return outer
    /\ limit (Source [10; 20; 30; 40]) (Some (Z.min 3 2)) = Return once
    /\ collect (S (length (items (Source [10; 20; 30; 40])))) outer
       = Some (firstn (Z.to_nat (Z.min 3 2)) (items (Source [10; 20; 30; 40])))
    /\ collect (S (length (items (Source [10; 20; 30; 40])))) once
       = Some (firstn (Z.to_nat (Z.min 3 2)) (items (Source [10; 20; 30; 40]))).
Proof.
  split; [repeat split; unfold sys_maxsize; lia|].
  apply (limit_of_limit_is_min (Source [10; 20; 30; 40]) 3 2);
    unfold sys_maxsize; lia.
Defined.

Lemma exhaust_islice {A : Type} (k : nat) :
  forall (fuel : nat) (seq : iter A),
    (length (items seq) < fuel)%nat ->
    exists upstream',
      exhaust fuel (Islice seq (Some k))
      = Some (firstn k (items seq),
              Islice upstream' (Some (k - length (items seq))%nat))
      /\ items upstream' = skipn k (items seq).
Proof.
  induction k as [|k IH]; intros fuel seq Hfuel.
  - destruct fuel as [|fuel]; [lia|]. exists seq. simpl. split; reflexivity.
  - destruct fuel as [|fuel]; [lia|].
    pose proof (next_items seq) as Hn. simpl.
    destruct (next seq) as [[x seq']|].
    + rewrite Hn in *. simpl in Hfuel.
      destruct (IH fuel seq' ltac:(lia)) as (up & Hex & Hup).
      exists up. rewrite Hex. simpl. split; [reflexivity|exact Hup].
    + rewrite Hn. exists seq. simpl. rewrite Hn. split; reflexivity.
Qed.

(** X8.  A limit within range does not read ahead: for [n] from 1 to
    [sys.maxsize], once the iterator returned by [limit(seq, n)] is exhausted,
    the upstream iterator it wraps still holds every element of [seq] that was
    not produced, so the elements produced followed by the elements left
    upstream are exactly those of [seq]. *)
Theorem limit_leaves_the_rest_upstream {A : Type} (seq : iter A) (n : Z) :
  0 < n -> n <= sys_maxsize ->
  exists out produced final upstream',
    limit seq (Some n) = Return out
    /\ exhaust (S (length (items seq))) out = Some (produced, final)
    /\ next final = None
    /\ upstream_of final = Some upstream'
    /\ items upstream' = skipn (Z.to_nat n) (items seq)
    /\ items seq = produced ++ items upstream'.
Proof.
  intros Hn Hmax.
  destruct (exhaust_islice (Z.to_nat n) (S (length (items seq))) seq ltac:(lia))
    as (up & Hex & Hup).
  exists (Islice seq (Some (Z.to_nat n))), (firstn (Z.to_nat n) (items seq)),
         (Islice up (Some (Z.to_nat n - length (items seq))%nat)), up.
  repeat split.
  - now apply limit_in_range.
  - exact Hex.
  - simpl. destruct (Z.to_nat n - length (items seq))%nat eqn:E; [reflexivity|].
    pose proof (next_items up) as Hn'. rewrite Hup in Hn'.
    destruct (next up) as [[x up']|]; [|reflexivity].
    rewrite skipn_all2 in Hn' by lia. discriminate.
  - exact Hup.
  - rewrite Hup. symmetry. apply firstn_skipn.
Qed.

Lemma limit_leaves_the_rest_upstream_witness :
  (0 < 2 /\ 2 <= sys_maxsize) /\
  exists out produced final upstream',
    limit (Source [10; 20; 30]) (Some 2) = Return out
    /\ exhaust (S (length (items (Source [10; 20; 30])))) out = Some (produced, final)
    /\ next final = None
    /\ upstream_of final = Some upstream'
    /\ items upstream' = skipn (Z.to_nat 2) (items (Source [10; 20; 30]))
    /\ items (Source [10; 20; 30]) = produced ++ items upstream'.
Proof.
  split; [split; [lia | unfold sys_maxsize; lia]|].
  apply (limit_leaves_the_rest_upstream (Source [10; 20; 30]) 2);
    [lia | unfold sys_maxsize; lia].
Defined.

(** ** Properties of [extract.py] *)

Module ExtractFacts.
Import Extract.

(** The two loading loops have the same shape; what follows holds for any loop
    of that shape. *)
Section Loop.

Context {A B : Type}.
Variable f : A -> outcome B.
Variable loop : list A -> list B -> outcome (list B).
Hypothesis loop_nil : forall acc, loop [] acc = Returned acc.
Hypothesis loop_cons : forall x rest acc,
  loop (x :: rest) acc = (obj <- f x ;; loop rest (acc ++ [obj])).

Lemma loop_returns_iff rows :
  forall acc out,
    loop rows acc = Returned out <->
    exists objs, out = acc ++ objs /\ Forall2 (fun x obj => f x = Returned obj) rows objs.
Proof.
  induction rows as [|x rest IH]; intros acc out.
  - rewrite loop_nil. split.
    + intros [= <-]. exists []. split; [now rewrite app_nil_r|constructor].
    + intros (objs & -> & H). inversion H. now rewrite app_nil_r.
  - rewrite loop_cons. split.
    + destruct (f x) as [obj|e] eqn:E; simpl; [|discriminate].
      intros H. apply IH in H. destruct H as (objs & -> & H).
      exists (obj :: objs). split; [now rewrite <- app_assoc|].
      now constructor.
    + intros (objs & -> & H). inversion H as [|? obj ? objs' Hx Hrest]; subst.
      rewrite Hx. simpl. apply IH. exists objs'.
      split; [now rewrite <- app_assoc|exact Hrest].
Qed.

Lemma loop_first_error good :
  forall bad rest acc e,
    Forall (fun x => exists obj, f x = Returned obj) good ->
    f bad = Raised e ->
    loop (good ++ bad :: rest) acc = Raised e.
Proof.
  induction good as [|x good IH]; intros bad rest acc e Hgood Hbad; simpl.
  - rewrite loop_cons, Hbad. reflexivity.
  - inversion Hgood as [|? ? (obj & Hx) Hgood']; subst.
    rewrite loop_cons, Hx. simpl. now apply IH.
Qed.

End Loop.

Section Loading.

Variable py_float : string -> option float.

Lemma load_neos_Forall2 csv_reader near_earth_objects :
  load_neos py_float csv_reader = Returned near_earth_objects <->
  Forall2 (fun line obj => neo_of_line py_float line = Returned obj)
    csv_reader near_earth_objects.
Proof.
  unfold load_neos.
  rewrite (loop_returns_iff (neo_of_line py_float) (load_neos_loop py_float)
             (fun _ => eq_refl) (fun _ _ _ => eq_refl)).
  split.
  - intros (objs & -> & H). exact H.
  - intros H. now exists near_earth_objects.
Qed.

(** X9.  [load_neos] is all or nothing and keeps the order: it returns a list
    iff each row yields an object, and then the list holds one object per
    row, the object of the i-th row in the i-th place. *)
Theorem load_neos_one_object_per_row (csv_reader : list csv_row)
    (near_earth_objects : list NearEarthObjectArgs) :
  load_neos py_float csv_reader = Returned near_earth_objects <->
  Forall2 (fun line obj => neo_of_line py_float line = Returned obj)
    csv_reader near_earth_objects
  /\ length near_earth_objects = length csv_reader.
Proof.
  rewrite load_neos_Forall2. split.
  - intros H. split; [exact H|]. symmetry. exact (Forall2_length H).
  - intros [H _]. exact H.
Qed.

(** X10.  The first row that fails decides: when the rows before it all yield
    an object, [load_neos] raises the exception of that row, whatever follows
    it, and returns no partial list. *)
Theorem load_neos_raises_first_error (good : list csv_row) (bad : csv_row)
    (rest : list csv_row) (e : error) :
  Forall (fun line => exists obj, neo_of_line py_float line = Returned obj) good ->
  neo_of_line py_float bad = Raised e ->
  load_neos py_float (good ++ bad :: rest) = Raised e.
Proof.
  intros Hgood Hbad. unfold load_neos.
  exact (loop_first_error (neo_of_line py_float) (load_neos_loop py_float)
           (fun _ _ _ => eq_refl) good bad rest [] e Hgood Hbad).
Qed.

(** The conversion of the diameter cell. *)
Lemma diameter_stage (d : option string) :
  (if cell_eq d "" then Returned nan else float_of_cell py_float d)
  = match d with
    | None => Raised TypeError
    | Some s => if String.eqb s "" then Returned nan
                else match py_float s with
                     | Some x => Returned x
                     | None => Raised (ValueError s)
                     end
    end.
Proof. destruct d as [s|]; simpl; [destruct (String.eqb s "")|]; reflexivity. Qed.

Lemma neo_of_line_present line pha d n p :
  line "pha"%string = Some pha -> line "diameter"%string = Some d ->
  line "name"%string = Some n -> line "pdes"%string = Some p ->
  neo_of_line py_float line
  = (diam <- (if cell_eq d "" then Returned nan else float_of_cell py_float d) ;;
     Returned (mkNeoArgs p (if cell_eq n "" then None else n) diam (cell_eq pha "Y"))).
Proof.
  intros Hpha Hd Hn Hp. unfold neo_of_line, getitem.
  rewrite Hpha, Hd, Hn, Hp. simpl.
  destruct (cell_eq d ""); simpl.
  - now destruct (cell_eq n "").
  - destruct (float_of_cell py_float d); simpl; [|reflexivity].
    now destruct (cell_eq n "").
Qed.

(** Where a row stops when a column is missing. *)
Lemma neo_of_line_missing line :
  (line "pha"%string = None -> neo_of_line py_float line = Raised (KeyError "pha"))
  /\ (forall pha, line "pha"%string = Some pha -> line "diameter"%string = None ->
        neo_of_line py_float line = Raised (KeyError "diameter"))
  /\ (forall pha d, line "pha"%string = Some pha -> line "diameter"%string = Some d ->
        forall e, (if cell_eq d "" then Returned nan else float_of_cell py_float d)
                  = Raised e ->
        neo_of_line py_float line = Raised e)
  /\ (forall pha d x, line "pha"%string = Some pha -> line "diameter"%string = Some d ->
        (if cell_eq d "" then Returned nan else float_of_cell py_float d) = Returned x ->
        line "name"%string = None ->
        neo_of_line py_float line = Raised (KeyError "name"))
  /\ (forall pha d x n, line "pha"%string = Some pha ->
        line "diameter"%string = Some d ->
        (if cell_eq d "" then Returned nan else float_of_cell py_float d) = Returned x ->
        line "name"%string = Some n -> line "pdes"%string = None ->
        neo_of_line py_float line = Raised (KeyError "pdes")).
Proof.
  unfold neo_of_line, getitem. repeat split.
  - intros ->. reflexivity.
  - intros pha -> ->. reflexivity.
  - intros pha d -> -> e. simpl.
    destruct (cell_eq d ""); simpl; [discriminate|]. now intros ->.
  - intros pha d x -> -> Hx ->. simpl.
    destruct (cell_eq d ""); simpl; [reflexivity|]. now rewrite Hx.
  - intros pha d x n -> -> Hx -> ->. simpl.
    destruct (cell_eq d ""); simpl; [|rewrite Hx; simpl];
      now destruct (cell_eq n "").
Qed.

Lemma neo_of_line_returned_present line obj :
  neo_of_line py_float line = Returned obj ->
  exists pha d n p,
    line "pha"%string = Some pha /\ line "diameter"%string = Some d
    /\ line "name"%string = Some n /\ line "pdes"%string = Some p.
Proof.
  intros H.
  destruct (neo_of_line_missing line) as (M1 & M2 & M3 & M4 & M5).
  destruct (line "pha"%string) as [pha|] eqn:Hpha;
    [|rewrite M1 in H by reflexivity; discriminate].
  destruct (line "diameter"%string) as [d|] eqn:Hd;
    [|rewrite (M2 pha) in H by reflexivity; discriminate].
  destruct (if cell_eq d "" then Returned nan else float_of_cell py_float d)
    as [x|e] eqn:Hx;
    [|rewrite (M3 pha d eq_refl eq_refl e Hx) in H; discriminate].
  destruct (line "name"%string) as [n|] eqn:Hn;
    [|rewrite (M4 pha d x eq_refl eq_refl Hx eq_refl) in H; discriminate].
  destruct (line "pdes"%string) as [p|] eqn:Hp;
    [|rewrite (M5 pha d x n eq_refl eq_refl Hx eq_refl eq_refl) in H; discriminate].
  now exists pha, d, n, p.
Qed.

(** X11.  What a loaded NEO holds: the designation is the [pdes] cell; the
    object is hazardous iff the [pha] cell is exactly the string Y; the name
    is [None] iff the [name] cell is empty or [None], and is the cell
    otherwise; the [diameter] cell is a string, the empty one giving NaN and
    any other what [float] makes of it. *)
Theorem neo_of_line_fields (line : csv_row) (obj : NearEarthObjectArgs) :
  neo_of_line py_float line = Returned obj ->
  line "pdes"%string = Some (arg_designation obj)
  /\ (arg_hazardous obj = true <-> line "pha"%string = Some (Some "Y"%string))
  /\ (arg_name obj = None <->
      line "name"%string = Some (Some ""%string) \/ line "name"%string = Some None)
  /\ (forall s, arg_name obj = Some s <->
                line "name"%string = Some (Some s) /\ s <> ""%string)
  /\ (exists d, line "diameter"%string = Some (Some d))
  /\ (line "diameter"%string = Some (Some ""%string) -> arg_diameter obj = nan)
  /\ (forall d, line "diameter"%string = Some (Some d) -> d <> ""%string ->
        py_float d = Some (arg_diameter obj)).
Proof.
  intros H.
  destruct (neo_of_line_returned_present line obj H) as (pha & d & n & p & Hpha & Hd & Hn & Hp).
  rewrite (neo_of_line_present line pha d n p Hpha Hd Hn Hp), diameter_stage in H.
  rewrite Hpha, Hd, Hn, Hp.
  destruct d as [d|]; [|discriminate H].
  assert (Hobj : exists diam,
            obj = mkNeoArgs p (if cell_eq n "" then None else n) diam (cell_eq pha "Y")
            /\ (if String.eqb d "" then Returned nan
                else match py_float d with
                     | Some x => Returned x
                     | None => Raised (ValueError d)
                     end) = Returned diam).
  { destruct (if String.eqb d "" then Returned nan
              else match py_float d with
                   | Some x => Returned x
                   | None => Raised (ValueError d)
                   end) as [diam|e]; simpl in H; [|discriminate].
    injection H as <-. now exists diam. }
  destruct Hobj as (diam & -> & Hdiam). simpl.
  split; [reflexivity|]. split.
  { destruct pha as [pha|]; simpl; [|split; [discriminate|intros [= H']; discriminate]].
    rewrite String.eqb_eq. split; congruence. }
  split.
  { destruct n as [n|]; simpl.
    - destruct (String.eqb_spec n "") as [->|Hne]; split.
      + intros _. now left.
      + reflexivity.
      + discriminate.
      + intros [[= ->]|[=]]. contradiction.
    - split; [intros _; now right | reflexivity]. }
  split.
  { intros s. destruct n as [n|]; simpl.
    - destruct (String.eqb_spec n ""); split.
      + discriminate.
      + intros [[= ->] Hs]. contradiction.
      + intros [= ->]. now split.
      + intros [[= ->] _]. reflexivity.
    - split; [discriminate|]. intros [H' _]. discriminate. }
  split; [now exists d|]. split.
  { intros [= ->]. simpl in Hdiam. congruence. }
  intros d' [= <-] Hne.
  destruct (String.eqb_spec d ""); [contradiction|].
  destruct (py_float d); congruence.
Qed.

(** X12.  [load_neos] returns a list exactly when every row has the four
    columns [pha], [diameter], [name] and [pdes] and a [diameter] cell that is
    a string, empty or accepted by [float]. *)
Theorem load_neos_returns_iff_loadable (csv_reader : list csv_row) :
  (exists near_earth_objects, load_neos py_float csv_reader = Returned near_earth_objects)
  <-> Forall (loadable_neo py_float) csv_reader.
Proof.
  assert (Hrow : forall line,
            (exists obj, neo_of_line py_float line = Returned obj)
            <-> loadable_neo py_float line).
  { intros line. unfold loadable_neo. split.
    - intros (obj & H).
      destruct (neo_of_line_returned_present line obj H)
        as (pha & d & n & p & Hpha & Hd & Hn & Hp).
      rewrite (neo_of_line_present line pha d n p Hpha Hd Hn Hp), diameter_stage in H.
      destruct d as [d|]; [|discriminate H].
      exists pha, d, n, p. repeat split; try assumption.
      destruct (String.eqb_spec d ""); [now left|right].
      destruct (py_float d) as [x|]; [now exists x|discriminate].
    - intros (pha & d & n & p & Hpha & Hd & Hn & Hp & Hdiam).
      rewrite (neo_of_line_present line pha (Some d) n p Hpha Hd Hn Hp), diameter_stage.
      destruct (String.eqb_spec d "") as [->|Hne]; simpl; [eexists; reflexivity|].
      destruct Hdiam as [->|(x & Hx)]; [contradiction|].
      rewrite Hx. simpl. eexists; reflexivity. }
  split.
  - intros (objs & H). apply load_neos_Forall2 in H.
    induction H as [|line obj rows objs Hx _ IH]; constructor; [|exact IH].
    apply Hrow. now exists obj.
  - intros H. induction H as [|line rows Hx _ (objs & IH)].
    + exists []. reflexivity.
    + apply Hrow in Hx. destruct Hx as (obj & Hx).
      exists (obj :: objs). apply load_neos_Forall2.
      apply load_neos_Forall2 in IH. now constructor.
Qed.

(** X13.  Which exception a row raises, in the order the code reads it: a
    missing [pha] column, then a missing [diameter] column, then a [diameter]
    cell that is [None] ([TypeError]), then one that is neither empty nor
    accepted by [float] ([ValueError]), then a missing [name] column, then a
    missing [pdes] column; nothing else makes a row fail. *)
Theorem neo_of_line_raises_iff (line : csv_row) (e : error) :
  neo_of_line py_float line = Raised e <->
  (line "pha"%string = None /\ e = KeyError "pha")
  \/ (line "pha"%string <> None /\ line "diameter"%string = None
      /\ e = KeyError "diameter")
  \/ (line "pha"%string <> None /\ line "diameter"%string = Some None
      /\ e = TypeError)
  \/ (line "pha"%string <> None
      /\ exists d, line "diameter"%string = Some (Some d) /\ d <> ""%string
                   /\ py_float d = None /\ e = ValueError d)
  \/ (line "pha"%string <> None
      /\ (exists d, line "diameter"%string = Some (Some d)
                    /\ (d = ""%string \/ py_float d <> None))
      /\ line "name"%string = None /\ e = KeyError "name")
  \/ (line "pha"%string <> None
      /\ (exists d, line "diameter"%string = Some (Some d)
                    /\ (d = ""%string \/ py_float d <> None))
      /\ line "name"%string <> None
      /\ line "pdes"%string = None /\ e = KeyError "pdes").
Proof.
  destruct (neo_of_line_missing line) as (M1 & M2 & M3 & M4 & M5).
  destruct (line "pha"%string) as [pha|] eqn:Hpha.
  2:{ rewrite M1 by reflexivity. split.
      - intros [= <-]. left. now split.
      - intros H. break_hyps; subst; congruence. }
  destruct (line "diameter"%string) as [d|] eqn:Hd.
  2:{ rewrite (M2 pha) by reflexivity. split.
      - intros [= <-]. right; left. repeat split. discriminate.
      - intros H. break_hyps; subst; congruence. }
  pose proof (diameter_stage d) as Hstage.
  destruct d as [d|].
  2:{ rewrite (M3 pha None eq_refl eq_refl TypeError Hstage). split.
      - intros [= <-]. do 2 right; left. repeat split. discriminate.
      - intros H. break_hyps; subst; congruence. }
  remember (if cell_eq (Some d) "" then Returned nan
            else float_of_cell py_float (Some d)) as stage eqn:Hx.
  symmetry in Hx.
  destruct stage as [x|e'].
  2:{ rewrite (M3 pha (Some d) eq_refl eq_refl e' Hx).
      assert (Hbad : d <> ""%string /\ py_float d = None /\ e' = ValueError d).
      { destruct (String.eqb_spec d ""); [discriminate Hstage|].
        destruct (py_float d); [discriminate Hstage|].
        injection Hstage as ->. now repeat split. }
      destruct Hbad as (Hne & Hnone & ->). split.
      - intros [= <-]. do 3 right; left. split; [discriminate|].
        exists d. now repeat split.
      - intros H. break_hyps; subst; congruence. }
  assert (Hok : d = ""%string \/ py_float d <> None).
  { destruct (String.eqb_spec d ""); [now left|right].
    destruct (py_float d); [discriminate|discriminate Hstage]. }
  destruct (line "name"%string) as [n|] eqn:Hn.
  2:{ rewrite (M4 pha (Some d) x eq_refl eq_refl Hx eq_refl). split.
      - intros [= <-]. do 4 right; left. repeat split; try discriminate.
        now exists d.
      - intros H. break_hyps; subst; congruence. }
  destruct (line "pdes"%string) as [p|] eqn:Hp.
  2:{ rewrite (M5 pha (Some d) x n eq_refl eq_refl Hx eq_refl eq_refl). split.
      - intros [= <-]. do 5 right. repeat split; try discriminate.
        now exists d.
      - intros H. break_hyps; subst; congruence. }
  rewrite (neo_of_line_present line pha (Some d) n p Hpha Hd Hn Hp), Hx. simpl.
  split; [discriminate|].
  intros H. break_hyps; subst; congruence.
Qed.

(** *** [load_approaches] *)

(** X14.  A row of close-approach data raises [IndexError] exactly when it has
    fewer than eight fields: field 7 is read first, so a row that holds the
    designation, the time and the distance but stops before the velocity is
    refused as a whole. *)
Theorem approach_of_line_IndexError_iff (line : list string) :
  approach_of_line py_float line = Raised IndexError <-> (length line < 8)%nat.
Proof.
  unfold approach_of_line, index, to_float.
  destruct line as [|c0 [|c1 [|c2 [|c3 [|c4 [|c5 [|c6 [|c7 rest]]]]]]]]; simpl;
    try (split; [intros _; lia | reflexivity]).
  split; [|lia].
  destruct (py_float c7); simpl; [|discriminate].
  destruct (py_float c4); simpl; discriminate.
Qed.

(** X15.  A row yields an object exactly when fields 7 and 4 exist and are
    accepted by [float]; the object then takes its velocity from field 7, its
    distance from field 4, its time from field 3 and its designation from
    field 0, and no other field is read. *)
Theorem approach_of_line_returns_iff (line : list string) (obj : CloseApproachArgs) :
  approach_of_line py_float line = Returned obj <->
  exists v d,
    nth_error line 7 = Some v /\ py_float v = Some (arg_velocity obj)
    /\ nth_error line 4 = Some d /\ py_float d = Some (arg_distance obj)
    /\ nth_error line 3 = Some (arg_time obj)
    /\ nth_error line 0 = Some (arg_neo_designation obj).
Proof.
  unfold approach_of_line, index, to_float.
  destruct line as [|c0 [|c1 [|c2 [|c3 [|c4 [|c5 [|c6 [|c7 rest]]]]]]]]; simpl;
    try (split; [discriminate | intros (v & d & H & _); discriminate]).
  split.
  - destruct (py_float c7) as [x|] eqn:E7; simpl; [|discriminate].
    destruct (py_float c4) as [y|] eqn:E4; simpl; [|discriminate].
    intros [= <-]. exists c7, c4. simpl. now repeat split.
  - intros (v & d & [= <-] & Hv & [= <-] & Hd & [= Ht] & [= Hn]).
    rewrite Hv, Hd. simpl. destruct obj; simpl in *. now subst.
Qed.

(** X16.  In a row with at least eight fields the velocity is converted before
    the distance: the row raises [ValueError] for a literal exactly when that
    literal is a velocity [float] refuses, or the velocity is accepted and the
    literal is a distance [float] refuses. *)
Theorem approach_of_line_ValueError_iff (line : list string) (s : string) :
  approach_of_line py_float line = Raised (ValueError s) <->
  (nth_error line 7 = Some s /\ py_float s = None)
  \/ (exists v, nth_error line 7 = Some v /\ py_float v <> None
                /\ nth_error line 4 = Some s /\ py_float s = None).
Proof.
  unfold approach_of_line, index, to_float.
  destruct line as [|c0 [|c1 [|c2 [|c3 [|c4 [|c5 [|c6 [|c7 rest]]]]]]]]; simpl;
    try (split; [discriminate | intros [[H _]|(v & H & _)]; discriminate]).
  destruct (py_float c7) as [x|] eqn:E7; simpl.
  - destruct (py_float c4) as [y|] eqn:E4; simpl; split.
    + discriminate.
    + intros [[[= <-] H]|(v & _ & _ & [= <-] & H)]; congruence.
    + intros [= <-]. right. exists c7. repeat split; congruence.
    + intros [[[= <-] H]|(v & _ & _ & [= <-] & H)]; congruence.
  - split.
    + intros [= <-]. left. now split.
    + intros [[[= <-] _]|(v & [= <-] & H & _)]; congruence.
Qed.

Lemma load_approaches_Forall2 data approach_objects :
  load_approaches py_float data = Returned approach_objects <->
  Forall2 (fun line obj => approach_of_line py_float line = Returned obj)
    data approach_objects.
Proof.
  unfold load_approaches.
  rewrite (loop_returns_iff (approach_of_line py_float) (load_approaches_loop py_float)
             (fun _ => eq_refl) (fun _ _ _ => eq_refl)).
  split.
  - intros (objs & -> & H). exact H.
  - intros H. now exists approach_objects.
Qed.

(** X17.  [load_approaches] is all or nothing and keeps the order: it returns
    a list iff each row yields an object, and then the list holds one object
    per row, the object of the i-th row in the i-th place. *)
Theorem load_approaches_one_object_per_row (data : list (list string))
    (approach_objects : list CloseApproachArgs) :
  load_approaches py_float data = Returned approach_objects <->
  Forall2 (fun line obj => approach_of_line py_float line = Returned obj)
    data approach_objects
  /\ length approach_objects = length data.
Proof.
  rewrite load_approaches_Forall2. split.
  - intros H. split; [exact H|]. symmetry. exact (Forall2_length H).
  - intros [H _]. exact H.
Qed.

(** X18.  The first row that fails decides: when the rows before it all yield
    an object, [load_approaches] raises the exception of that row, whatever
    follows it, and returns no partial list. *)
Theorem load_approaches_raises_first_error (good : list (list string))
    (bad : list string) (rest : list (list string)) (e : error) :
  Forall (fun line => exists obj, approach_of_line py_float line = Returned obj) good ->
  approach_of_line py_float bad = Raised e ->
  load_approaches py_float (good ++ bad :: rest) = Raised e.
Proof.
  intros Hgood Hbad. unfold load_approaches.
  exact (loop_first_error (approach_of_line py_float) (load_approaches_loop py_float)
           (fun _ _ _ => eq_refl) good bad rest [] e Hgood Hbad).
Qed.

End Loading.

Lemma load_neos_raises_first_error_witness :
  (Forall (fun line => exists obj, neo_of_line sample_float line = Returned obj) [eros_row]
   /\ neo_of_line sample_float garbled_row = Raised (ValueError "abc"))
  /\ load_neos sample_float ([eros_row] ++ garbled_row :: [unmeasured_row])
     = Raised (ValueError "abc").
Proof.
  assert (Hgood : Forall (fun line => exists obj, neo_of_line sample_float line = Returned obj)
                    [eros_row])
    by (constructor; [eexists; reflexivity | constructor]).
  split; [split; [exact Hgood | reflexivity]|].
  apply (load_neos_raises_first_error sample_float [eros_row] garbled_row
           [unmeasured_row] (ValueError "abc") Hgood).
  reflexivity.
Defined.

Lemma neo_of_line_fields_witness :
  neo_of_line sample_float unmeasured_row = Returned unmeasured_args
  /\ unmeasured_row "pdes"%string = Some (arg_designation unmeasured_args)
  /\ (arg_hazardous unmeasured_args = true
      <-> unmeasured_row "pha"%string = Some (Some "Y"%string))
  /\ (arg_name unmeasured_args = None <->
      unmeasured_row "name"%string = Some (Some ""%string)
      \/ unmeasured_row "name"%string = Some None)
  /\ (forall s, arg_name unmeasured_args = Some s <->
                unmeasured_row "name"%string = Some (Some s) /\ s <> ""%string)
  /\ (exists d, unmeasured_row "diameter"%string = Some (Some d))
  /\ (unmeasured_row "diameter"%string = Some (Some ""%string) ->
      arg_diameter unmeasured_args = nan)
  /\ (forall d, unmeasured_row "diameter"%string = Some (Some d) -> d <> ""%string ->
        sample_float d = Some (arg_diameter unmeasured_args)).
Proof.
  split; [reflexivity|].
  apply (neo_of_line_fields sample_float unmeasured_row unmeasured_args).
  reflexivity.
Defined.

Lemma load_approaches_raises_first_error_witness :
  (Forall (fun line => exists obj, approach_of_line sample_float line = Returned obj)
     [eros_cad]
   /\ approach_of_line sample_float short_cad = Raised IndexError)
  /\ load_approaches sample_float ([eros_cad] ++ short_cad :: [eros_cad]) = Raised IndexError.
Proof.
  assert (Hgood : Forall (fun line => exists obj,
                            approach_of_line sample_float line = Returned obj) [eros_cad])
    by (constructor; [eexists; reflexivity | constructor]).
  split; [split; [exact Hgood | reflexivity]|].
  apply (load_approaches_raises_first_error sample_float [eros_cad] short_cad
           [eros_cad] IndexError Hgood).
  reflexivity.
Defined.

(** The fixture loads as expected. *)
Example load_fixture :
  load_neos sample_float [eros_row; unmeasured_row] = Returned [eros_args; unmeasured_args]
  /\ load_neos sample_float [eros_row; short_row] = Raised TypeError
  /\ load_approaches sample_float [eros_cad]
     = Returned [mkArgs "2020-Jan-01 12:30" (b64 1 (-2)) (b64 5 0) "2000433"].
Proof. repeat split. Qed.

End ExtractFacts.
